(** * The HTTP client pipeline and the environment configuration

    A shallow embedding of [src/services/api.ts] (the [ApiService] class, its
    default interceptors) and of [config/env.ts] (the environment readers).

    - JavaScript values are the inductive [value]; objects are finite maps
      from property names to values.
    - Strings are sequences of code units below 256; the operations used by
      the code ([startsWith], the two anchored [replace] calls, [parseInt])
      look at single code units only.
    - Numbers are the integers plus [NaN]. The numbers of the code are
      doubles, which hold every integer up to 2^53 in magnitude; a larger
      integer stands for the double nearest to it. The code inspects a
      number only to test it for truth, to compare a status with 401, to
      arm a timer and to print it.
    - An [async] function is a state-and-exception computation [M A]: it
      takes the browser state ([World]) and gives the new state and either a
      returned value or a thrown one. Every promise is taken to settle.
    - What the client calls but does not define ([fetch] and the network
      behind it, [JSON.stringify], [getErrorMessage] of [utils]) is a
      [Platform], over which the statements quantify. *)

From Stdlib Require Import ZArith Ascii DecimalString DecimalPos DecimalZ.
From stdpp Require Import gmap strings list.

Set Warnings "-register-all".
#[local] Open Scope string_scope.
#[local] Open Scope list_scope.
#[local] Open Scope Z_scope.

(** ** JavaScript values *)

Module Js.

Inductive value :=
  | VUndefined
  | VNull
  | VBool (b : bool)
  | VNum (z : Z)
  | VNaN
  | VStr (s : string)
  | VArr (l : list value)
  | VObj (m : gmap string value).

(** [!!v]: the values that are not falsy. *)
Definition truthy (v : value) : bool :=
  match v with
  | VUndefined | VNull | VNaN => false
  | VBool b => b
  | VNum z => negb (z =? 0)
  | VStr s => negb (String.eqb s "")
  | VArr _ | VObj _ => true
  end.

(** [a || b] on values. *)
Definition or_else (a b : value) : value := if truthy a then a else b.

(** [a || b] where [a] is an optional string ([undefined] or [""] is falsy). *)
Definition str_or_else (a : option string) (b : string) : string :=
  match a with
  | Some s => if String.eqb s "" then b else s
  | None => b
  end.

(** [a || b] where [a] is an optional number ([undefined] or [0] is falsy). *)
Definition num_or_else (a : option Z) (b : Z) : Z :=
  match a with
  | Some z => if z =? 0 then b else z
  | None => b
  end.

(** *** Numbers

    The numbers of the code are doubles. A double that is an integer is
    that integer here, and every integer up to 2^53 in magnitude is one; an
    integer that no double equals stands for the double nearest to it, and
    those from 2^1024 - 2^970 on for [Infinity]. *)

Definition infinity : Z := 2 ^ 1024.

(** The double nearest to a natural number: 53 bits are kept, a tie goes to
    the even one, and what lies beyond the largest double is [infinity]. *)
Definition round_to_double (v : Z) : Z :=
  if v <=? 2 ^ 53 then v
  else
    let e := Z.log2 v - 52 in
    let q := Z.shiftr v e in
    let r := v - Z.shiftl q e in
    let half := Z.shiftl 1 (e - 1) in
    let q' := if (half <? r) || ((r =? half) && Z.odd q) then q + 1 else q in
    Z.min infinity (Z.shiftl q' e).

Definition decimal (z : Z) : string := NilZero.string_of_int (Z.to_int z).

(** The digits that [Number.prototype.toString] prints for a double [x]
    above 2^53 that has [n] decimal digits: the least number [k] of digits
    such that some [s * 10^(n-k)] with [k] digits in [s] is read back as
    [x], and of two such [s] the one nearer to [x]. *)
Definition shortest_at (x n k : Z) : option Z :=
  let p := 10 ^ (n - k) in
  let lo := x / p in
  let hi := lo + 1 in
  let reads_back s := round_to_double (s * p) =? x in
  match reads_back lo, reads_back hi && (hi <? 10 ^ k) with
  | true, true =>
      let below := x - lo * p in
      let above := hi * p - x in
      Some (if below <? above then lo
            else if above <? below then hi
            else if Z.even lo then lo else hi)
  | true, false => Some lo
  | false, true => Some hi
  | false, false => None
  end.

(** The digits [s] and the exponent [n] of [x = s * 10^(n-k)]; 17 digits
    tell any two doubles apart. *)
Definition shortest_digits (x : Z) : Z * Z :=
  let n := Z.of_nat (String.length (decimal x)) in
  if round_to_double (10 ^ n) =? x then (1, n + 1)
  else
    match
      fold_right (fun k found => match shortest_at x n k with
                                 | Some s => Some s
                                 | None => found
                                 end)
        None [1; 2; 3; 4; 5; 6; 7; 8; 9; 10; 11; 12; 13; 14; 15; 16; 17]
    with
    | Some s => (s, n)
    | None => (x, n)
    end.

Fixpoint zeros (n : nat) : string :=
  match n with
  | O => ""
  | S n' => String "0" (zeros n')
  end.

(** A double above 2^53: its digits followed by zeros up to 21 digits, and
    in exponent form from 10^21 on. *)
Definition large_number_text (x : Z) : string :=
  if infinity <=? x then "Infinity"
  else
    let '(s, n) := shortest_digits x in
    let ds := decimal s in
    let k := Z.of_nat (String.length ds) in
    if n <=? 21 then ds +:+ zeros (Z.to_nat (n - k))
    else
      match ds with
      | String d rest =>
          String d (match rest with
                    | EmptyString => ""
                    | _ => String "." rest
                    end)
          +:+ "e+" +:+ decimal (n - 1)
      | EmptyString => ""
      end.

(** [String(z)] for a number: the decimal form of an integer up to 2^53 in
    magnitude, and beyond what is printed for the double. *)
Definition Z_to_string (z : Z) : string :=
  if Z.abs z <=? 2 ^ 53 then decimal z
  else (if z <? 0 then "-" else "")
       +:+ large_number_text (round_to_double (Z.abs z)).

Fixpoint join (sep : string) (l : list string) : string :=
  match l with
  | [] => ""
  | [s] => s
  | s :: l' => s +:+ sep +:+ join sep l'
  end.

(** [s.startsWith(p)] *)
Fixpoint startsWith (s p : string) : bool :=
  match p, s with
  | EmptyString, _ => true
  | String a p', String b s' => if Ascii.eqb a b then startsWith s' p' else false
  | String _ _, EmptyString => false
  end.

(** [s.replace(/\/$/, '')]: the anchor is the end of the input, so at most the
    last code unit goes. *)
Fixpoint replace_trailing_slash (s : string) : string :=
  match s with
  | EmptyString => EmptyString
  | String c EmptyString => if Ascii.eqb c "/"%char then EmptyString else s
  | String c s' => String c (replace_trailing_slash s')
  end.

(** [s.replace(/^\//, '')]: at most the first code unit goes. *)
Definition replace_leading_slash (s : string) : string :=
  match s with
  | String c s' => if Ascii.eqb c "/"%char then s' else s
  | EmptyString => EmptyString
  end.

(** *** [parseInt(s, 10)] *)

(** White space among the code units below 256: TAB, LF, VT, FF, CR, SP and
    NBSP. *)
Definition is_white_space (c : ascii) : bool :=
  let n := Z.of_nat (nat_of_ascii c) in
  ((9 <=? n) && (n <=? 13)) || (n =? 32) || (n =? 160).

Definition digit_of (c : ascii) : option Z :=
  let n := Z.of_nat (nat_of_ascii c) in
  if (48 <=? n) && (n <=? 57) then Some (n - 48) else None.

Fixpoint skip_white_space (s : string) : string :=
  match s with
  | String c s' => if is_white_space c then skip_white_space s' else s
  | EmptyString => EmptyString
  end.

(** The digits at the front of [s], most significant first. *)
Fixpoint leading_digits (s : string) : list Z :=
  match s with
  | String c s' =>
      match digit_of c with
      | Some d => d :: leading_digits s'
      | None => []
      end
  | EmptyString => []
  end.

Definition digits_value (ds : list Z) : Z :=
  fold_left (fun acc d => 10 * acc + d) ds 0.

(** [None] stands for [NaN]. The radix is given as 10, so no [0x] prefix is
    recognised. The result is the double nearest to the integer that sign
    and digits denote, which is that integer when it is at most 2^53 in
    magnitude. *)
Definition parseInt (s : string) : option Z :=
  let s1 := skip_white_space s in
  let '(sign, s2) :=
    match s1 with
    | String c s' =>
        if Ascii.eqb c "-"%char then (-1, s')
        else if Ascii.eqb c "+"%char then (1, s')
        else (1, s1)
    | EmptyString => (1, s1)
    end in
  match leading_digits s2 with
  | [] => None
  | ds => Some (sign * round_to_double (digits_value ds))
  end.

(** *** Thrown values *)

(** [class ApiClientError extends Error]; [name] is the constant
    ['ApiClientError']. [code] and [details] are stored as passed. *)
Record ApiClientError := mkApiClientError {
  message : string;
  status : Z;
  code : value;
  details : value;
}.

(** What a [throw] carries. [instanceof ApiClientError] holds of [ExApi] only. *)
Inductive exn :=
  | ExApi (e : ApiClientError)
  | ExError (name msg : string)
  | ExValue (v : value).

Definition instanceof_ApiClientError (x : exn) : bool :=
  match x with
  | ExApi _ => true
  | _ => false
  end.

Inductive Outcome (A : Type) :=
  | Returned (a : A)
  | Threw (x : exn).
Arguments Returned {A} a.
Arguments Threw {A} x.

(** [String(v)], as the [Error] constructor applies it to its message. An
    array prints its elements with commas between them, [null] and
    [undefined] among them as nothing. An object decoded from JSON prints
    through [Object.prototype.toString], unless it has a property
    [toString] of its own: that one is not a function, [valueOf] gives the
    object back, and the conversion throws a [TypeError]. The text of the
    message is the engine's. *)
Fixpoint ToString (v : value) : Outcome string :=
  match v with
  | VUndefined => Returned "undefined"
  | VNull => Returned "null"
  | VBool true => Returned "true"
  | VBool false => Returned "false"
  | VNum z => Returned (Z_to_string z)
  | VNaN => Returned "NaN"
  | VStr s => Returned s
  | VArr l =>
      match
        (fix elems (l : list value) : Outcome (list string) :=
           match l with
           | [] => Returned []
           | x :: l' =>
               match
                 match x with
                 | VUndefined | VNull => Returned ""
                 | _ => ToString x
                 end
               with
               | Returned s =>
                   match elems l' with
                   | Returned ss => Returned (s :: ss)
                   | Threw e => Threw e
                   end
               | Threw e => Threw e
               end
           end) l
      with
      | Returned ss => Returned (join "," ss)
      | Threw e => Threw e
      end
  | VObj m =>
      if bool_decide (is_Some (m !! "toString"))
      then Threw (ExError "TypeError" "Cannot convert object to primitive value")
      else Returned "[object Object]"
  end.

(** [v.k] for a property that no built-in prototype defines: reading from
    [null] or [undefined] throws a [TypeError], a primitive or an array has
    no such property. The text of the message is the engine's. *)
Definition get_prop (v : value) (k : string) : Outcome value :=
  match v with
  | VObj m => Returned (default VUndefined (m !! k))
  | VNull =>
      Threw (ExError "TypeError"
               ("Cannot read properties of null (reading '" +:+ k +:+ "')"))
  | VUndefined =>
      Threw (ExError "TypeError"
               ("Cannot read properties of undefined (reading '" +:+ k +:+ "')"))
  | _ => Returned VUndefined
  end.

(** [v && typeof v === 'object' && k in v] *)
Definition is_object_with (k : string) (v : value) : bool :=
  match v with
  | VObj m => bool_decide (is_Some (m !! k))
  | _ => false
  end.

End Js.

(** ** [config/env.ts] *)

Module Env.
Import Js.

Record EnvConfig := mkEnvConfig {
  APP_NAME : string;
  APP_VERSION : string;
  APP_DESCRIPTION : string;
  NODE_ENV : string;
  API_BASE_URL : string;
  API_TIMEOUT : Z;
  ENABLE_ANALYTICS : bool;
  ENABLE_DEBUG : bool;
}.

(** Sequencing of expressions that may throw. *)
Definition and_then {A B} (o : Outcome A) (k : A -> Outcome B) : Outcome B :=
  match o with
  | Returned a => k a
  | Threw x => Threw x
  end.

Section Readers.
(** [import.meta.env]: the variables that are set, each a string. *)
Variable import_meta_env : gmap string string.

Definition getEnvVar (key : string) (defaultValue : option string)
  : Outcome string :=
  let value :=
    match import_meta_env !! key with
    | Some s => if String.eqb s "" then defaultValue else Some s
    | None => defaultValue
    end in
  match value with
  | Some s =>
      if String.eqb s "" then
        Threw (ExError "Error"
                 ("Environment variable " +:+ key +:+ " is required but not set"))
      else Returned s
  | None =>
      Threw (ExError "Error"
               ("Environment variable " +:+ key +:+ " is required but not set"))
  end.

Definition getBooleanEnvVar (key : string) (defaultValue : bool) : bool :=
  match import_meta_env !! key with
  | None => defaultValue
  | Some value => String.eqb value "true" || String.eqb value "1"
  end.

Definition getNumberEnvVar (key : string) (defaultValue : option Z)
  : Outcome Z :=
  let value := import_meta_env !! key in
  match value, defaultValue with
  | None, Some d => Returned d
  | _, _ =>
      match parseInt (str_or_else value "0") with
      | None =>
          Threw (ExError "Error"
                   ("Environment variable " +:+ key +:+ " must be a valid number"))
      | Some parsed => Returned parsed
      end
  end.

(** The module-level constant [env]: the object literal evaluates its
    fields in order, and the first throw aborts the module. *)
Definition env : Outcome EnvConfig :=
  and_then (getEnvVar "VITE_APP_NAME" (Some "Kurama")) (fun app_name =>
  and_then (getEnvVar "VITE_APP_VERSION" (Some "1.0.0")) (fun app_version =>
  and_then (getEnvVar "VITE_APP_DESCRIPTION"
              (Some "Enterprise React Application")) (fun app_description =>
  and_then (getEnvVar "VITE_NODE_ENV" (Some "development")) (fun node_env =>
  and_then (getEnvVar "VITE_API_BASE_URL"
              (Some "http://localhost:8000/api")) (fun api_base_url =>
  and_then (getNumberEnvVar "VITE_API_TIMEOUT" (Some 10000)) (fun api_timeout =>
  Returned
    (mkEnvConfig app_name app_version app_description node_env api_base_url
       api_timeout
       (getBooleanEnvVar "VITE_ENABLE_ANALYTICS" false)
       (getBooleanEnvVar "VITE_ENABLE_DEBUG" true)))))))).
End Readers.

(** The reading of "a valid number" that the wording of the configuration
    contract suggests: an optional sign, at least one decimal digit, and
    nothing else. *)
Fixpoint all_digits (s : string) : bool :=
  match s with
  | String c s' => bool_decide (is_Some (digit_of c)) && all_digits s'
  | EmptyString => true
  end.


(** [isDevelopment], [isProduction] and [isTest], of a constructed [env]. *)
Definition isDevelopment (e : EnvConfig) : bool := String.eqb (NODE_ENV e) "development".
Definition isProduction (e : EnvConfig) : bool := String.eqb (NODE_ENV e) "production".
Definition isTest (e : EnvConfig) : bool := String.eqb (NODE_ENV e) "test".

End Env.

(** ** [services/api.ts] *)

Module Api.
Import Js.

Module ApiConfig.
Record t := mk {
  baseURL : string;
  timeout : Z;
  headers : gmap string string;
}.
End ApiConfig.

(** [Partial<ApiConfig>]: a field that is not given is [None]. *)
Module PartialApiConfig.
Record t := mk {
  baseURL : option string;
  timeout : option Z;
  headers : option (gmap string string);
}.
Definition empty : t := mk None None None.
End PartialApiConfig.

(** [RequestConfig extends RequestInit]: the fields of [RequestInit] that
    the client sets or reads, and the two fields it adds. [headers] is a
    plain record of strings. *)
Module RequestConfig.
Record t := mk {
  method : option string;
  headers : option (gmap string string);
  body : option string;
  timeout : option Z;
  baseURL : option string;
}.
Definition empty : t := mk None None None None None.
End RequestConfig.

(** What [fetch] resolves to. [ok] is the platform's: a status from 200 to
    299. [json] is what [response.json()] settles to. *)
Module Response.
Record t := mk {
  status : Z;
  statusText : string;
  json : Outcome value;
}.
Definition ok (r : t) : bool := (200 <=? status r) && (status r <=? 299).
End Response.

(** The state of the browser that the client reads or writes: the local
    storage, the location the window was last sent to, what [console.error]
    received, and the calls made to [fetch] with the ones that were aborted. *)
Record World := mkWorld {
  localStorage : gmap string string;
  location_href : string;
  console_error : list ApiClientError;
  fetch_log : list (string * RequestConfig.t);
  abort_log : list string;
}.

(** An asynchronous computation, run to its settlement. *)
Definition M (A : Type) : Type := World -> World * Outcome A.

Definition ret {A} (a : A) : M A := fun w => (w, Returned a).
Definition throw {A} (x : exn) : M A := fun w => (w, Threw x).
Definition bind {A B} (m : M A) (k : A -> M B) : M B :=
  fun w =>
    match m w with
    | (w', Returned a) => k a w'
    | (w', Threw x) => (w', Threw x)
    end.
(** An expression that may throw, inside an asynchronous function. *)
Definition lift {A} (o : Outcome A) : M A := fun w => (w, o).

Declare Scope async_scope.
Delimit Scope async_scope with async.
Notation "x <- m ;; k" := (bind m (fun x => k))
  (at level 100, m at next level, right associativity) : async_scope.
#[local] Open Scope async_scope.

Definition RequestInterceptor : Type := RequestConfig.t -> M RequestConfig.t.
Definition ResponseInterceptor : Type := value -> M value.
(** Declared as returning [Promise<never>]; a value it returns all the same
    is dropped by the caller. *)
Definition ErrorInterceptor : Type := ApiClientError -> M value.

(** What the platform answers to one [fetch]: after how many milliseconds
    the promise would settle, and to what. *)
Record NetReply := mkNetReply {
  latency : Z;
  settles : Outcome Response.t;
}.

(** The parts of the surroundings that the client calls: [getErrorMessage]
    of [utils], [JSON.stringify] ([None] for [undefined]), the network, and
    the message of the [AbortError] the platform rejects an aborted [fetch]
    with. *)
Record Platform := mkPlatform {
  getErrorMessage : exn -> string;
  JSON_stringify : value -> option string;
  network : World -> string -> RequestConfig.t -> NetReply;
  abort_message : string;
}.

Definition defaultConfig (env : Env.EnvConfig) : ApiConfig.t :=
  ApiConfig.mk (Env.API_BASE_URL env) (Env.API_TIMEOUT env)
    {[ "Content-Type" := "application/json" ]}.

Record ApiService := mkApiService {
  config : ApiConfig.t;
  requestInterceptors : list RequestInterceptor;
  responseInterceptors : list ResponseInterceptor;
  errorInterceptors : list ErrorInterceptor;
}.

(** [constructor]: [{ ...defaultConfig, ...config }]. *)
Definition new_ApiService (env : Env.EnvConfig) (config : PartialApiConfig.t)
  : ApiService :=
  let d := defaultConfig env in
  mkApiService
    (ApiConfig.mk
       (default (ApiConfig.baseURL d) (PartialApiConfig.baseURL config))
       (default (ApiConfig.timeout d) (PartialApiConfig.timeout config))
       (default (ApiConfig.headers d) (PartialApiConfig.headers config)))
    [] [] [].

Definition addRequestInterceptor (this : ApiService) (interceptor : RequestInterceptor)
  : ApiService :=
  mkApiService (config this) (requestInterceptors this ++ [interceptor])
    (responseInterceptors this) (errorInterceptors this).

Definition addResponseInterceptor (this : ApiService) (interceptor : ResponseInterceptor)
  : ApiService :=
  mkApiService (config this) (requestInterceptors this)
    (responseInterceptors this ++ [interceptor]) (errorInterceptors this).

Definition addErrorInterceptor (this : ApiService) (interceptor : ErrorInterceptor)
  : ApiService :=
  mkApiService (config this) (requestInterceptors this)
    (responseInterceptors this) (errorInterceptors this ++ [interceptor]).

(** The [for ... of] loops of the three [apply*Interceptors] methods. *)
Fixpoint request_loop (l : list RequestInterceptor) (finalConfig : RequestConfig.t)
  : M RequestConfig.t :=
  match l with
  | [] => ret finalConfig
  | interceptor :: l' =>
      finalConfig' <- interceptor finalConfig ;; request_loop l' finalConfig'
  end.

Fixpoint response_loop (l : list ResponseInterceptor) (finalResponse : value)
  : M value :=
  match l with
  | [] => ret finalResponse
  | interceptor :: l' =>
      finalResponse' <- interceptor finalResponse ;; response_loop l' finalResponse'
  end.

Fixpoint error_loop (l : list ErrorInterceptor) (error : ApiClientError)
  : M value :=
  match l with
  | [] => throw (ExApi error)
  | interceptor :: l' => _ <- interceptor error ;; error_loop l' error
  end.

Definition applyRequestInterceptors (this : ApiService) (config : RequestConfig.t)
  : M RequestConfig.t :=
  request_loop (requestInterceptors this) config.

Definition applyResponseInterceptors (this : ApiService) (response : value)
  : M value :=
  response_loop (responseInterceptors this) response.

Definition applyErrorInterceptors (this : ApiService) (error : ApiClientError)
  : M value :=
  error_loop (errorInterceptors this) error.

Definition buildUrl (this : ApiService) (url : string) (baseURL : option string)
  : string :=
  let base := str_or_else baseURL (ApiConfig.baseURL (config this)) in
  if startsWith url "http" then url
  else replace_trailing_slash base +:+ "/" +:+ replace_leading_slash url.

(** [{ ...config, headers: { ...this.config.headers, ...config.headers } }]
    for the call's [config], here [cfg]. *)
Definition with_default_headers (this : ApiService) (cfg : RequestConfig.t)
  : RequestConfig.t :=
  RequestConfig.mk (RequestConfig.method cfg)
    (Some (default ∅ (RequestConfig.headers cfg)
           ∪ ApiConfig.headers (config this)))
    (RequestConfig.body cfg) (RequestConfig.timeout cfg)
    (RequestConfig.baseURL cfg).

Section Client.
Variable P : Platform.

(** The delay that [setTimeout] works with: one above 2^31 - 1 does not fit
    the timer, which then fires after 1 ms. *)
Definition timer_delay (timeout : Z) : Z :=
  if 2147483647 <? timeout then 1 else timeout.

(** Lines 134-142: the timer armed with [setTimeout], the call to [fetch],
    and [clearTimeout] once [fetch] has resolved. The timer wins when it is
    due before the network settles; [controller.abort()] then cancels the
    operation and [fetch] rejects with an [AbortError]. *)
Definition fetch_with_abort (fullUrl : string) (init : RequestConfig.t)
    (timeout : Z) : M Response.t :=
  fun w =>
    let reply := network P w fullUrl init in
    let w1 := mkWorld (localStorage w) (location_href w) (console_error w)
                (fetch_log w ++ [(fullUrl, init)]) (abort_log w) in
    if timer_delay timeout <? latency reply then
      (mkWorld (localStorage w1) (location_href w1) (console_error w1)
         (fetch_log w1) (abort_log w1 ++ [fullUrl]),
       Threw (ExError "AbortError" (abort_message P)))
    else (w1, settles reply).

(** [await response.json().catch(() => ({}))] *)
Definition json_or_empty (response : Response.t) : value :=
  match Response.json response with
  | Returned v => v
  | Threw _ => VObj ∅
  end.

(** Lines 146-153: the error built from a response that is not [ok]. The
    three property reads throw on [null]; the constructor then turns the
    message into a string, which throws on an object that does not print. *)
Definition http_error (response : Response.t) : M ApiClientError :=
  let errorData := json_or_empty response in
  m <- lift (get_prop errorData "message") ;;
  c <- lift (get_prop errorData "code") ;;
  d <- lift (get_prop errorData "details") ;;
  text <- lift (ToString
                  (or_else m
                     (VStr ("HTTP " +:+ Z_to_string (Response.status response)
                            +:+ ": " +:+ Response.statusText response)))) ;;
  ret (mkApiClientError text
         (Response.status response)
         (or_else c (VStr "HTTP_ERROR"))
         d).

(** The two [return this.apply...(...)] of the [try] block hand a promise
    over without awaiting it: the block is left before that promise
    settles, and its rejection does not reach the [catch] clause. *)
Inductive Tail :=
  | TailError (apiError : ApiClientError)
  | TailResponse (data : value).

(** Lines 121-161, up to the two [return]s. *)
Definition makeRequest_try (this : ApiService) (url : string)
    (cfg : RequestConfig.t) : M Tail :=
  finalConfig <- applyRequestInterceptors this (with_default_headers this cfg) ;;
  let fullUrl := buildUrl this url (RequestConfig.baseURL finalConfig) in
  let timeout := num_or_else (RequestConfig.timeout finalConfig)
                   (ApiConfig.timeout (config this)) in
  response <- fetch_with_abort fullUrl finalConfig timeout ;;
  if negb (Response.ok response) then
    apiError <- http_error response ;;
    ret (TailError apiError)
  else
    data <- lift (Response.json response) ;;
    ret (TailResponse data).

(** Lines 162-174. *)
Definition makeRequest_catch (this : ApiService) (error : exn) : M value :=
  if instanceof_ApiClientError error then throw error
  else
    applyErrorInterceptors this
      (mkApiClientError (getErrorMessage P error) 0 (VStr "NETWORK_ERROR")
         VUndefined).

Definition makeRequest (this : ApiService) (url : string)
    (cfg : RequestConfig.t) : M value :=
  fun w =>
    match makeRequest_try this url cfg w with
    | (w1, Returned (TailError apiError)) => applyErrorInterceptors this apiError w1
    | (w1, Returned (TailResponse data)) => applyResponseInterceptors this data w1
    | (w1, Threw error) => makeRequest_catch this error w1
    end.

(** [{ ...config, method, body }]; an absent [config] spreads to nothing. *)
Definition with_method_body (cfg : option RequestConfig.t) (method : string)
    (body : option string) : RequestConfig.t :=
  let c := default RequestConfig.empty cfg in
  RequestConfig.mk (Some method) (RequestConfig.headers c) body
    (RequestConfig.timeout c) (RequestConfig.baseURL c).

(** [{ ...config, method }] *)
Definition with_method (cfg : option RequestConfig.t) (method : string)
  : RequestConfig.t :=
  let c := default RequestConfig.empty cfg in
  RequestConfig.mk (Some method) (RequestConfig.headers c) (RequestConfig.body c)
    (RequestConfig.timeout c) (RequestConfig.baseURL c).

(** [data ? JSON.stringify(data) : undefined] *)
Definition body_of (data : value) : option string :=
  if truthy data then JSON_stringify P data else None.

Definition get (this : ApiService) (url : string) (cfg : option RequestConfig.t)
  : M value :=
  makeRequest this url (with_method cfg "GET").

Definition post (this : ApiService) (url : string) (data : value)
    (cfg : option RequestConfig.t) : M value :=
  makeRequest this url (with_method_body cfg "POST" (body_of data)).

Definition put (this : ApiService) (url : string) (data : value)
    (cfg : option RequestConfig.t) : M value :=
  makeRequest this url (with_method_body cfg "PUT" (body_of data)).

Definition patch (this : ApiService) (url : string) (data : value)
    (cfg : option RequestConfig.t) : M value :=
  makeRequest this url (with_method_body cfg "PATCH" (body_of data)).

Definition delete (this : ApiService) (url : string) (cfg : option RequestConfig.t)
  : M value :=
  makeRequest this url (with_method cfg "DELETE").
End Client.

(** *** The default interceptors and [apiClient] *)

Definition default_request_interceptor : RequestInterceptor :=
  fun cfg w =>
    match localStorage w !! "auth_token" with
    | Some token =>
        if String.eqb token "" then (w, Returned cfg)
        else
          (w, Returned
                (RequestConfig.mk (RequestConfig.method cfg)
                   (Some (<["Authorization" := "Bearer " +:+ token]>
                            (default ∅ (RequestConfig.headers cfg))))
                   (RequestConfig.body cfg) (RequestConfig.timeout cfg)
                   (RequestConfig.baseURL cfg)))
    | None => (w, Returned cfg)
    end.

Definition default_response_interceptor : ResponseInterceptor :=
  fun response =>
    if is_object_with "data" response then
      match response with
      | VObj m => ret (default VUndefined (m !! "data"))
      | _ => ret response
      end
    else ret response.

Definition default_error_interceptor (env : Env.EnvConfig) : ErrorInterceptor :=
  fun error w =>
    let w1 :=
      if status error =? 401 then
        mkWorld (base.delete "refresh_token" (base.delete "auth_token" (localStorage w)))
          "/login" (console_error w) (fetch_log w) (abort_log w)
      else w in
    let w2 :=
      if Env.ENABLE_DEBUG env then
        mkWorld (localStorage w1) (location_href w1) (console_error w1 ++ [error])
          (fetch_log w1) (abort_log w1)
      else w1 in
    (w2, Threw (ExApi error)).

Definition apiClient (env : Env.EnvConfig) : ApiService :=
  addErrorInterceptor
    (addResponseInterceptor
       (addRequestInterceptor (new_ApiService env PartialApiConfig.empty)
          default_request_interceptor)
       default_response_interceptor)
    (default_error_interceptor env).

End Api.

(** ** Definitions used to state the contract *)

Module Contract.
Import Js Api.

(** "Exactly one [/] between base and path, whatever slashes either side
    has": the base without its trailing slashes, one slash, the path without
    its leading slashes. *)
Fixpoint drop_leading_slashes (s : string) : string :=
  match s with
  | String c s' => if Ascii.eqb c "/"%char then drop_leading_slashes s' else s
  | EmptyString => EmptyString
  end.

Fixpoint drop_trailing_slashes (s : string) : string :=
  match s with
  | String c s' =>
      let r := drop_trailing_slashes s' in
      if Ascii.eqb c "/"%char && String.eqb r "" then EmptyString else String c r
  | EmptyString => EmptyString
  end.

Definition joined_by_one_slash (base path : string) : string :=
  drop_trailing_slashes base +:+ "/" +:+ drop_leading_slashes path.

Fixpoint ends_with_slash (s : string) : bool :=
  match s with
  | EmptyString => false
  | String c EmptyString => Ascii.eqb c "/"%char
  | String _ s' => ends_with_slash s'
  end.

Definition starts_with_slash (s : string) : bool :=
  match s with
  | String c _ => Ascii.eqb c "/"%char
  | EmptyString => false
  end.

Fixpoint all_white_space (s : string) : bool :=
  match s with
  | String c s' => is_white_space c && all_white_space s'
  | EmptyString => true
  end.



(** The sign that [parseInt] reads from an optional sign character. *)
Definition sign_of (sgn : string) : Z := if String.eqb sgn "-" then -1 else 1.

(** Every interceptor of [l] returns normally on [error], taking the world
    from [w] to [w']. *)
Inductive all_return (error : ApiClientError)
  : list ErrorInterceptor -> World -> World -> Prop :=
  | all_return_nil w : all_return error [] w w
  | all_return_cons i l w w1 w2 v :
      i error w = (w1, Returned v) ->
      all_return error l w1 w2 ->
      all_return error (i :: l) w w2.

(** The world once [fetch] has been called with [init]. *)
Definition fetched (w : World) (fullUrl : string) (init : RequestConfig.t) : World :=
  mkWorld (localStorage w) (location_href w) (console_error w)
    (fetch_log w ++ [(fullUrl, init)]) (abort_log w).


(** The timeout a call runs under: [finalConfig.timeout || this.config.timeout]. *)
Definition effective_timeout (this : ApiService) (finalConfig : RequestConfig.t) : Z :=
  num_or_else (RequestConfig.timeout finalConfig) (ApiConfig.timeout (config this)).

End Contract.

(** ** Concrete surroundings for the examples *)

Module Sample.
Import Js Api.

(** [env] when no variable is set. *)
Definition env : Env.EnvConfig :=
  Env.mkEnvConfig "Kurama" "1.0.0" "Enterprise React Application" "development"
    "http://localhost:8000/api" 10000 false true.

(** [getErrorMessage] as the tests of [utils] describe it: the message of
    an [Error], a thrown string itself, and a fixed text otherwise. *)
Definition getErrorMessage (x : exn) : string :=
  match x with
  | ExApi e => message e
  | ExError _ m => m
  | ExValue (VStr s) => s
  | ExValue _ => "An unknown error occurred"
  end.

Definition dquote : string := String (ascii_of_nat 34) EmptyString.

(** A serializer for the examples: properties come in the order of the map,
    and strings are taken to need no escaping. *)
Fixpoint stringify (v : value) : option string :=
  match v with
  | VUndefined => None
  | VNull | VNaN => Some "null"
  | VBool true => Some "true"
  | VBool false => Some "false"
  | VNum z => Some (Z_to_string z)
  | VStr s => Some (dquote +:+ s +:+ dquote)
  | VArr l => Some ("[" +:+ join "," (map (fun x => default "null" (stringify x)) l) +:+ "]")
  | VObj m =>
      Some ("{" +:+
            join ","
              (omap (fun '(k, o) => (fun s => dquote +:+ k +:+ dquote +:+ ":" +:+ s) <$> o)
                 (map_to_list (stringify <$> m)))
            +:+ "}")
  end.

(** A network that answers every call with the same reply. *)
Definition platform (reply : NetReply) : Platform :=
  mkPlatform getErrorMessage stringify (fun _ _ _ => reply)
    "signal is aborted without reason".

Definition world : World := mkWorld ∅ "" [] [] [].

Definition logged_in : World :=
  mkWorld (<["refresh_token" := "r1"]> (<["auth_token" := "t1"]> ∅)) "/home" [] [] [].

Definition service : ApiService := new_ApiService env PartialApiConfig.empty.

Definition unauthorized : ApiClientError :=
  mkApiClientError "Unauthorized" 401 (VStr "HTTP_ERROR") VUndefined.

Definition server_error : ApiClientError :=
  mkApiClientError "HTTP 500: Internal Server Error" 500 (VStr "HTTP_ERROR") VUndefined.

(** An error interceptor that raises an error of its own. *)
Definition raising : ErrorInterceptor :=
  fun _ => throw (ExError "Error" "reported").

(** An error interceptor that leaves a mark in the world and returns. *)
Definition marking (mark : string) : ErrorInterceptor :=
  fun _ w =>
    (mkWorld (localStorage w) mark (console_error w) (fetch_log w) (abort_log w),
     Returned VUndefined).

(** A request interceptor that adds [tag] to the end of the header
    [X-Trace] and leaves the rest of the configuration as it is. *)
Definition stamping (tag : string) : RequestInterceptor :=
  fun cfg =>
    let hs := default ∅ (RequestConfig.headers cfg) in
    ret (RequestConfig.mk (RequestConfig.method cfg)
           (Some (<["X-Trace" := default "" (hs !! "X-Trace") +:+ tag]> hs))
           (RequestConfig.body cfg) (RequestConfig.timeout cfg)
           (RequestConfig.baseURL cfg)).

(** A response interceptor that throws. *)
Definition failing_response : ResponseInterceptor :=
  fun _ => throw (ExError "Error" "bad payload").

(** Replies of the network: a success with an envelope, a reply that comes
    after 30 seconds, a connection that fails, an error whose body is the
    JSON text [null], and an error with a structured body. *)
Definition users : value := VArr [VObj {[ "id" := VStr "1" ]}].

Definition ok_users : NetReply :=
  mkNetReply 40
    (Returned
       (Response.mk 200 "OK"
          (Returned (VObj (<["data" := users]> {[ "success" := VBool true ]}))))).


Definition down : NetReply :=
  mkNetReply 5 (Threw (ExError "TypeError" "Failed to fetch")).

Definition null_500 : NetReply :=
  mkNetReply 40
    (Returned (Response.mk 500 "Internal Server Error" (Returned VNull))).

Definition not_found : NetReply :=
  mkNetReply 40
    (Returned
       (Response.mk 404 "Not Found"
          (Returned (VObj (<["code" := VStr "NO_USER"]>
                             {[ "message" := VStr "No such user" ]}))))).

Definition html_502 : NetReply :=
  mkNetReply 40
    (Returned
       (Response.mk 502 "Bad Gateway"
          (Threw (ExError "SyntaxError" "Unexpected token < in JSON at position 0")))).

(** What reaches [fetch] for a [GET] without options when no token is
    stored, and where it goes. *)
Definition get_config : RequestConfig.t :=
  RequestConfig.mk (Some "GET") (Some {[ "Content-Type" := "application/json" ]})
    None None None.

Definition users_url : string := "http://localhost:8000/api/users".

End Sample.

(** ** [hooks/useApi.ts] *)

Module Hooks.
Import Js Api.

(** What [useApi] keeps between renders: the three [useState] cells, as
    their setters were last called, and [mountedRef.current]. *)
Record HookState := mkHookState {
  data : value;
  isLoading : bool;
  error : value;
  mounted : bool;
}.

(** The state of a component that has just mounted. *)
Definition initial : HookState := mkHookState VNull false VNull true.

(** [f?.(a)] for an optional callback; what it returns is dropped. *)
Definition optional_call {A} (f : option (A -> M value)) (a : A) : M value :=
  match f with
  | Some g => g a
  | None => ret VUndefined
  end.

(** [apiError.message] for [apiError = err as ApiClientError]: the cast
    does nothing, and the read throws on [null] and [undefined]. *)
Definition message_of (err : exn) : Outcome value :=
  match err with
  | ExApi e => Returned (VStr (message e))
  | ExError _ m => Returned (VStr m)
  | ExValue v => get_prop v "message"
  end.

(** The [finally] clause of [execute]. *)
Definition execute_finally (r : World * HookState * Outcome value)
  : World * HookState * Outcome value :=
  let '(w, h, o) := r in
  (w, if mounted h then mkHookState (data h) false (error h) (mounted h) else h, o).

(** The [catch] clause of [execute]. *)
Definition execute_catch (onError : option (exn -> M value)) (err : exn)
    (h : HookState) (w : World) : World * HookState * Outcome value :=
  if mounted h then
    match message_of err with
    | Threw t => (w, h, Threw t)
    | Returned m =>
        let h' := mkHookState (data h) (isLoading h) m (mounted h) in
        match optional_call onError err w with
        | (w', Returned _) => (w', h', Returned VNull)
        | (w', Threw t) => (w', h', Threw t)
        end
    end
  else (w, h, Returned VNull).

(** [execute] of [useApi], lines 33-63, for the call [apiCall(...args)].
    [unmounts] tells whether the component unmounts while the call is
    pending, the one point where [execute] is suspended. *)
Definition execute (apiCall : M value) (onSuccess : option (value -> M value))
    (onError : option (exn -> M value)) (unmounts : bool) (h : HookState)
    (w : World) : World * HookState * Outcome value :=
  let h1 := mkHookState (data h) true VNull (mounted h && negb unmounts) in
  execute_finally
    match apiCall w with
    | (w1, Returned result) =>
        if mounted h1 then
          let h2 := mkHookState result (isLoading h1) (error h1) (mounted h1) in
          match optional_call onSuccess result w1 with
          | (w2, Returned _) => (w2, h2, Returned result)
          | (w2, Threw x) => execute_catch onError x h2 w2
          end
        else (w1, h1, Returned result)
    | (w1, Threw err) => execute_catch onError err h1 w1
    end.

(** [reset] of [useApi]. *)
Definition reset (h : HookState) : HookState :=
  mkHookState VNull false VNull (mounted h).

(** The URL that [usePaginatedApi] asks for. *)
Definition page_url (baseUrl : string) (page pageSize : Z) : string :=
  baseUrl +:+ "?page=" +:+ Z_to_string page +:+ "&limit=" +:+ Z_to_string pageSize.

End Hooks.

(** ** [utils/imageUtils.ts] *)

Module ImageUtils.
Import Js.

Fixpoint has_dot (s : string) : bool :=
  match s with
  | String c s' => Ascii.eqb c "."%char || has_dot s'
  | EmptyString => false
  end.

(** [s.split('.').pop()]: what follows the last dot, and all of [s] when it
    has no dot. *)
Fixpoint last_segment (s : string) : string :=
  match s with
  | String c s' =>
      if has_dot s' then last_segment s'
      else if Ascii.eqb c "."%char then s' else s
  | EmptyString => EmptyString
  end.

(** [s] without as many code units as [pat] has. *)
Fixpoint drop_as_many (pat s : string) : string :=
  match pat, s with
  | String _ pat', String _ s' => drop_as_many pat' s'
  | EmptyString, _ => s
  | _, EmptyString => EmptyString
  end.

(** [s.replace(pat, '')] for a string [pat]: the first occurrence goes. *)
Fixpoint replace_first (pat s : string) : string :=
  if startsWith s pat then drop_as_many pat s
  else
    match s with
    | String c s' => String c (replace_first pat s')
    | EmptyString => EmptyString
    end.

(** [s.indexOf(pat)], with [None] for -1. *)
Fixpoint indexOf (pat s : string) : option nat :=
  if startsWith s pat then Some 0%nat
  else
    match s with
    | String _ s' => S <$> indexOf pat s'
    | EmptyString => None
    end.

Definition default_sizes : list Z := [320; 640; 768; 1024; 1280; 1920].

Definition generateSrcSet (basePath : string) (sizes : option (list Z)) : string :=
  join ", "
    (map (fun size =>
            let extension := last_segment basePath in
            let pathWithoutExt := replace_first ("." +:+ extension) basePath in
            pathWithoutExt +:+ "-" +:+ Z_to_string size +:+ "w." +:+ extension
            +:+ " " +:+ Z_to_string size +:+ "w")
       (default default_sizes sizes)).

(** The two fields of a [File] that the tips read; [size] is in bytes. *)
Record File := mkFile {
  type : string;
  size : Z;
}.

(** [sizeInMB] is [size / (1024 * 1024)]; dividing by a power of two is
    exact, so its comparisons with 2, 0.5 and 1 are comparisons of [size]
    with 2097152, 524288 and 1048576. *)
Definition getImageOptimizationTips (file : File) : list string :=
  (if 2097152 <? size file
   then ["Consider compressing the image - it's larger than 2MB"] else [])
  ++ (if String.eqb (type file) "image/png" && (524288 <? size file)
      then ["Consider converting PNG to WebP for better compression"] else [])
  ++ (if String.eqb (type file) "image/jpeg" && (1048576 <? size file)
      then ["Consider reducing JPEG quality or dimensions"] else []).

End ImageUtils.

(** ** [test/utils.tsx] *)

Module TestUtils.
Import Js.

(** [mockApiResponse(data)]; [timestamp] is [new Date().toISOString()]. *)
Definition mockApiResponse (timestamp : string) (data : value) : value :=
  VObj (<["data" := data]>
          (<["message" := VStr "Success"]>
             (<["success" := VBool true]> {[ "timestamp" := VStr timestamp ]}))).

(** [mockApiError(message, code, status)], with ['ERROR'] and 400 when the
    last two are not given. *)
Definition mockApiError (message : string) (code : option string)
    (status : option Z) : value :=
  VObj (<["message" := VStr message]>
          (<["code" := VStr (default "ERROR" code)]>
             (<["status" := VNum (default 400 status)]> {[ "details" := VObj ∅ ]}))).

End TestUtils.

(** * Properties *)

(** ** Strings and [parseInt] *)

Section StringFacts.
Import Js Env Contract.

Lemma append_cons (c : ascii) (s t : string) :
  String c s +:+ t = String c (s +:+ t).
Proof. reflexivity. Qed.

Lemma append_nil_l (t : string) : "" +:+ t = t.
Proof. reflexivity. Qed.

Lemma append_nil_r (s : string) : s +:+ "" = s.
Proof.
  induction s as [|c s IH]; [reflexivity|].
  now rewrite append_cons, IH.
Qed.

Lemma replace_trailing_slash_keeps (b : string) :
  ends_with_slash b = false -> replace_trailing_slash b = b.
Proof.
  induction b as [|c b IH]; simpl; [reflexivity|].
  destruct b as [|c' b'].
  - intros ->. reflexivity.
  - intros H. now rewrite (IH H).
Qed.

Lemma replace_trailing_slash_drops (b : string) :
  replace_trailing_slash (b +:+ "/") = b.
Proof.
  induction b as [|c b IH]; [reflexivity|].
  rewrite append_cons.
  assert (Hne : exists c' t, b +:+ "/" = String c' t).
  { destruct b as [|c' b']; [exists "/"%char, ""| exists c', (b' +:+ "/")]; reflexivity. }
  destruct Hne as (c' & t & Ht). rewrite Ht in *.
  change (replace_trailing_slash (String c (String c' t)))
    with (String c (replace_trailing_slash (String c' t))).
  now rewrite IH.
Qed.

Lemma replace_leading_slash_keeps (p : string) :
  starts_with_slash p = false -> replace_leading_slash p = p.
Proof. destruct p as [|c p]; simpl; [reflexivity | now intros ->]. Qed.

Lemma digit_not_space_or_sign (c : ascii) (d : Z) :
  digit_of c = Some d ->
  is_white_space c = false /\ Ascii.eqb c "-"%char = false
  /\ Ascii.eqb c "+"%char = false.
Proof.
  destruct c as [[] [] [] [] [] [] [] []]; vm_compute; intros H;
    first [discriminate H | repeat split].
Qed.

Lemma leading_digits_app (ds rest : string) :
  all_digits ds = true ->
  leading_digits (ds +:+ rest) = leading_digits ds ++ leading_digits rest.
Proof.
  induction ds as [|c ds IH]; [reflexivity|].
  rewrite append_cons. simpl.
  intros H. apply andb_prop in H as [Hc Hds].
  apply bool_decide_eq_true in Hc as [d Hd]. rewrite Hd. simpl.
  now rewrite (IH Hds).
Qed.

Lemma skip_white_space_app (ws s : string) :
  all_white_space ws = true -> skip_white_space (ws +:+ s) = skip_white_space s.
Proof.
  induction ws as [|c ws IH]; [reflexivity|].
  rewrite append_cons. simpl. intros H. apply andb_prop in H as [Hc Hws].
  rewrite Hc. now apply IH.
Qed.


(** Up to 2^53 every integer is a double. *)
Lemma round_to_double_exact (v : Z) : v <= 2 ^ 53 -> round_to_double v = v.
Proof.
  intros H. unfold round_to_double.
  destruct (Z.leb_spec v (2 ^ 53)); [reflexivity | lia].
Qed.

Lemma leading_digits_value (sign : Z) (ds rest : string) :
  ds <> "" -> all_digits ds = true -> leading_digits rest = [] ->
  match leading_digits (ds +:+ rest) with
  | [] => None
  | l => Some (sign * round_to_double (digits_value l))
  end = Some (sign * round_to_double (digits_value (leading_digits ds))).
Proof.
  intros Hne Hds Hrest.
  rewrite (leading_digits_app _ _ Hds), Hrest, app_nil_r.
  destruct ds as [|c ds]; [congruence|].
  simpl in Hds. apply andb_prop in Hds as [Hc _].
  apply bool_decide_eq_true in Hc as [d Hd]. simpl. now rewrite Hd.
Qed.

(** [parseInt] skips white space, reads an optional sign and the digits
    behind it, and ignores what follows the digits. *)
Lemma parseInt_numeral (ws sgn ds rest : string) :
  all_white_space ws = true ->
  sgn = "" \/ sgn = "+" \/ sgn = "-" ->
  ds <> "" -> all_digits ds = true -> leading_digits rest = [] ->
  parseInt (ws +:+ sgn +:+ ds +:+ rest)
  = Some (sign_of sgn * round_to_double (digits_value (leading_digits ds))).
Proof.
  intros Hws Hsgn Hne Hds Hrest. unfold parseInt.
  rewrite (skip_white_space_app _ _ Hws).
  destruct Hsgn as [-> | [-> | ->]].
  - rewrite append_nil_l.
    assert (Hhead : exists c t d, ds = String c t /\ digit_of c = Some d).
    { destruct ds as [|c t]; [congruence|]. simpl in Hds.
      apply andb_prop in Hds as [Hc _]. apply bool_decide_eq_true in Hc as [d Hd].
      now exists c, t, d. }
    destruct Hhead as (c & t & d & Eds & Hd).
    destruct (digit_not_space_or_sign c d Hd) as (Hw & Hm & Hp).
    assert (Hskip : skip_white_space (ds +:+ rest) = String c (t +:+ rest)).
    { rewrite Eds, append_cons. simpl. now rewrite Hw. }
    rewrite Hskip, Hm, Hp. rewrite <- append_cons, <- Eds.
    now apply leading_digits_value.
  - change (skip_white_space ("+" +:+ ds +:+ rest)) with (String "+" (ds +:+ rest)).
    cbv beta iota. change (Ascii.eqb "+" "-") with false.
    change (Ascii.eqb "+" "+") with true. cbv iota.
    now apply leading_digits_value.
  - change (skip_white_space ("-" +:+ ds +:+ rest)) with (String "-" (ds +:+ rest)).
    cbv beta iota. change (Ascii.eqb "-" "-") with true. cbv iota.
    now apply leading_digits_value.
Qed.

End StringFacts.

(** ** The environment readers *)

Section EnvFacts.
Import Js Env Contract.
Variable import_meta_env : gmap string string.

Lemma getEnvVar_with_default (key d : string) :
  d <> "" ->
  getEnvVar import_meta_env key (Some d)
  = Returned (str_or_else (import_meta_env !! key) d).
Proof.
  intros Hd. apply String.eqb_neq in Hd.
  unfold getEnvVar, str_or_else.
  destruct (import_meta_env !! key) as [s|].
  - destruct (String.eqb s "") eqn:Hs; [now rewrite Hd | now rewrite Hs].
  - now rewrite Hd.
Qed.

(** [env] fails exactly as its one numeric reader does. *)
Lemma env_follows_timeout :
  env import_meta_env
  = and_then (getNumberEnvVar import_meta_env "VITE_API_TIMEOUT" (Some 10000))
      (fun t =>
         Returned
           (mkEnvConfig
              (str_or_else (import_meta_env !! "VITE_APP_NAME") "Kurama")
              (str_or_else (import_meta_env !! "VITE_APP_VERSION") "1.0.0")
              (str_or_else (import_meta_env !! "VITE_APP_DESCRIPTION")
                 "Enterprise React Application")
              (str_or_else (import_meta_env !! "VITE_NODE_ENV") "development")
              (str_or_else (import_meta_env !! "VITE_API_BASE_URL")
                 "http://localhost:8000/api")
              t
              (getBooleanEnvVar import_meta_env "VITE_ENABLE_ANALYTICS" false)
              (getBooleanEnvVar import_meta_env "VITE_ENABLE_DEBUG" true))).
Proof.
  unfold env. rewrite !getEnvVar_with_default by discriminate. reflexivity.
Qed.

End EnvFacts.

(** ** [buildUrl] *)

Section BuildUrlFacts.
Import Js Api Contract.

Lemma buildUrl_absolute (this : ApiService) (url : string) (baseURL : option string) :
  startsWith url "http" = true -> buildUrl this url baseURL = url.
Proof. intros H. unfold buildUrl. now rewrite H. Qed.

Lemma buildUrl_relative (this : ApiService) (url : string) (baseURL : option string) :
  startsWith url "http" = false ->
  buildUrl this url baseURL
  = replace_trailing_slash (str_or_else baseURL (ApiConfig.baseURL (config this)))
    +:+ "/" +:+ replace_leading_slash url.
Proof. intros H. unfold buildUrl. now rewrite H. Qed.

(** C2, as the code has it. A path that starts with [http] is the result,
    whatever the base. Otherwise the base is the call's when it is given
    and not empty, else the client's; one slash at the end of the base, when
    there is one, and one slash at the start of the path, when there is
    one, are dropped, and the two are joined by a slash. So a base with at
    most one trailing slash and a path with at most one leading slash are
    joined by exactly one slash, and further slashes stay. *)
Theorem buildUrl_resolves (this : ApiService) (url : string)
    (baseURL : option string) :
  (startsWith url "http" = true -> buildUrl this url baseURL = url)
  /\ (startsWith url "http" = false ->
      forall b p,
        (str_or_else baseURL (ApiConfig.baseURL (config this)) = b
         /\ ends_with_slash b = false
         \/ str_or_else baseURL (ApiConfig.baseURL (config this)) = b +:+ "/") ->
        (url = p /\ starts_with_slash p = false \/ url = "/" +:+ p) ->
        buildUrl this url baseURL = b +:+ "/" +:+ p).
Proof.
  split; [apply buildUrl_absolute|].
  intros Hrel b p Hbase Hurl.
  rewrite (buildUrl_relative _ _ _ Hrel).
  assert (Hl : replace_leading_slash url = p).
  { destruct Hurl as [[-> Hp] | ->];
      [now apply replace_leading_slash_keeps | reflexivity]. }
  assert (Hr : replace_trailing_slash
                 (str_or_else baseURL (ApiConfig.baseURL (config this))) = b).
  { destruct Hbase as [[-> Hb] | ->];
      [now apply replace_trailing_slash_keeps
      | apply replace_trailing_slash_drops]. }
  now rewrite Hl, Hr.
Qed.
End BuildUrlFacts.

Section EnvExamples.
Import Js Env Contract.


(** Beyond 2^53 the value read is the nearest double, and it is printed as
    the code prints a double. *)
Example long_digits_are_rounded :
  getNumberEnvVar {[ "VITE_API_TIMEOUT" := "9007199254740993" ]} "VITE_API_TIMEOUT"
    (Some 10000) = Returned 9007199254740992
  /\ Z_to_string (10 ^ 21) = "1e+21"
  /\ Z_to_string (2 ^ 64) = "18446744073709552000"
  /\ Z_to_string (2 ^ 70) = "1.1805916207174113e+21".
Proof. repeat split; vm_compute; reflexivity. Qed.


Example env_defaults : env ∅ = Returned Sample.env.
Proof. vm_compute. reflexivity. Qed.

Example parseInt_examples :
  parseInt "  -42px" = Some (-42) /\ parseInt "1e3" = Some 1
  /\ parseInt "0x10" = Some 0 /\ parseInt "" = None /\ parseInt "+" = None
  /\ parseInt ".5" = None.
Proof. repeat split. Qed.
End EnvExamples.

Section BuildUrlExamples.
Import Js Api Contract.

(** The theorem at base [http://host/api/] and path [/users]. *)
Lemma buildUrl_resolves_witness :
  buildUrl Sample.service "/users" (Some "http://host/api/")
  = "http://host/api/users".
Proof.
  apply (proj2 (buildUrl_resolves Sample.service "/users" (Some "http://host/api/"))
           eq_refl "http://host/api" "users");
    right; reflexivity.
Defined.

(** C2 as worded fails: with two slashes at the end of the base, two
    slashes separate base and path in the result. *)
Lemma buildUrl_keeps_extra_slashes :
  buildUrl Sample.service "users" (Some "http://host/api//")
  = "http://host/api//users"
  /\ joined_by_one_slash "http://host/api//" "users" = "http://host/api/users"
  /\ buildUrl Sample.service "users" (Some "http://host/api//")
     <> joined_by_one_slash "http://host/api//" "users".
Proof. repeat split. vm_compute. discriminate. Qed.

Example buildUrl_examples :
  buildUrl Sample.service "/users" None = "http://localhost:8000/api/users"
  /\ buildUrl Sample.service "users" (Some "") = "http://localhost:8000/api/users"
  /\ buildUrl Sample.service "https://other/x" (Some "http://host/api") = "https://other/x"
  /\ buildUrl Sample.service "httpd/conf" None = "httpd/conf"
  /\ buildUrl Sample.service "//users" (Some "http://host/api") = "http://host/api//users".
Proof. repeat split. Qed.
End BuildUrlExamples.

(** ** The error-interceptor chain *)

Section ErrorChainFacts.
Import Js Api Contract.

Lemma error_loop_never_returns (l : list ErrorInterceptor) (error : ApiClientError) :
  forall w w' v, error_loop l error w <> (w', Returned v).
Proof.
  induction l as [|i l IH]; intros w w' v; simpl.
  - unfold throw. congruence.
  - unfold bind. destruct (i error w) as [w1 [v1|x]]; [apply IH | congruence].
Qed.

Lemma error_loop_outcome (l : list ErrorInterceptor) (error : ApiClientError) :
  forall w,
    (exists w', all_return error l w w'
                /\ error_loop l error w = (w', Threw (ExApi error)))
    \/ (exists l1 i l2 wi w' x,
          l = l1 ++ i :: l2 /\ all_return error l1 w wi
          /\ i error wi = (w', Threw x)
          /\ error_loop l error w = (w', Threw x)).
Proof.
  induction l as [|i l IH]; intros w.
  - left. exists w. split; [constructor | reflexivity].
  - simpl. unfold bind. destruct (i error w) as [w1 [v1|x]] eqn:Hi.
    + destruct (IH w1) as [(w' & Hall & Hrun) | (l1 & j & l2 & wi & w' & x & -> & Hall & Hj & Hrun)].
      * left. exists w'. split; [econstructor; eassumption | exact Hrun].
      * right. exists (i :: l1), j, l2, wi, w', x.
        repeat split; try assumption. econstructor; eassumption.
    + right. exists [], i, l, w, w1, x. repeat split; [constructor | exact Hi].
Qed.

(** C5, as the code has it. The chain never resolves. The interceptors run
    in registration order up to the first one that raises, and what that
    one raises is what the caller gets; when every interceptor returns,
    the chain itself raises the error it was given. *)
Theorem applyErrorInterceptors_raises (this : ApiService) (error : ApiClientError)
    (w : World) :
  (forall w' v, applyErrorInterceptors this error w <> (w', Returned v))
  /\ ((exists w', all_return error (errorInterceptors this) w w'
                  /\ applyErrorInterceptors this error w = (w', Threw (ExApi error)))
      \/ (exists l1 i l2 wi w' x,
            errorInterceptors this = l1 ++ i :: l2
            /\ all_return error l1 w wi
            /\ i error wi = (w', Threw x)
            /\ applyErrorInterceptors this error w = (w', Threw x))).
Proof.
  split.
  - apply error_loop_never_returns.
  - apply error_loop_outcome.
Qed.

Lemma default_error_interceptor_raises (env : Env.EnvConfig) (error : ApiClientError)
    (w : World) :
  snd (default_error_interceptor env error w) = Threw (ExApi error).
Proof. reflexivity. Qed.

(** C7. Once an error with status 401 reaches the error chain of
    [apiClient], both tokens are gone from the local storage, the other
    keys are as they were, the window is sent to [/login], and the caller
    gets that error. *)
Theorem unauthorized_clears_credentials (env : Env.EnvConfig)
    (error : ApiClientError) (w : World) :
  status error = 401 ->
  exists w',
    applyErrorInterceptors (apiClient env) error w = (w', Threw (ExApi error))
    /\ localStorage w' !! "auth_token" = None
    /\ localStorage w' !! "refresh_token" = None
    /\ (forall k, k <> "auth_token" -> k <> "refresh_token" ->
                  localStorage w' !! k = localStorage w !! k)
    /\ location_href w' = "/login".
Proof.
  intros H401.
  unfold applyErrorInterceptors, apiClient. simpl.
  unfold bind, default_error_interceptor. rewrite H401. simpl.
  destruct (Env.ENABLE_DEBUG env); eexists; (split; [reflexivity|]); simpl;
    (split; [|split; [|split; [|reflexivity]]]).
  all: try (rewrite lookup_delete_ne by discriminate; apply lookup_delete_eq).
  all: try apply lookup_delete_eq.
  all: intros k Ha Hr; rewrite !lookup_delete_ne by congruence; reflexivity.
Qed.

(** An error with another status leaves the storage and the location. *)
Lemma other_status_keeps_credentials (env : Env.EnvConfig)
    (error : ApiClientError) (w : World) :
  status error <> 401 ->
  localStorage (fst (default_error_interceptor env error w)) = localStorage w
  /\ location_href (fst (default_error_interceptor env error w)) = location_href w.
Proof.
  intros H. apply Z.eqb_neq in H. unfold default_error_interceptor. rewrite H.
  destruct (Env.ENABLE_DEBUG env); split; reflexivity.
Qed.
End ErrorChainFacts.

Section ErrorChainExamples.
Import Js Api Contract.

(** The theorem at the sample error with status 401, in a world that holds
    both tokens. *)
Lemma unauthorized_clears_credentials_witness :
  status Sample.unauthorized = 401
  /\ exists w',
       applyErrorInterceptors (apiClient Sample.env) Sample.unauthorized
         Sample.logged_in = (w', Threw (ExApi Sample.unauthorized))
       /\ localStorage w' !! "auth_token" = None
       /\ localStorage w' !! "refresh_token" = None
       /\ (forall k, k <> "auth_token" -> k <> "refresh_token" ->
                     localStorage w' !! k = localStorage Sample.logged_in !! k)
       /\ location_href w' = "/login".
Proof.
  split; [reflexivity|].
  apply (unauthorized_clears_credentials Sample.env Sample.unauthorized
           Sample.logged_in).
  reflexivity.
Defined.

(** C5 as worded fails. With an interceptor that raises an error of its
    own registered first, the caller gets that error and not the one that
    entered the chain, and the interceptor registered after it never runs;
    the same holds behind the default interceptor of [apiClient], which
    raises the error it was given. *)
Lemma later_error_interceptors_do_not_run :
  let this :=
    addErrorInterceptor (addErrorInterceptor Sample.service Sample.raising)
      (Sample.marking "/seen") in
  let client := addErrorInterceptor (apiClient Sample.env) (Sample.marking "/seen") in
  applyErrorInterceptors this Sample.server_error Sample.world
  = (Sample.world, Threw (ExError "Error" "reported"))
  /\ snd (applyErrorInterceptors this Sample.server_error Sample.world)
     <> Threw (ExApi Sample.server_error)
  /\ ~ (exists w', all_return Sample.server_error (errorInterceptors this)
                     Sample.world w')
  /\ location_href
       (fst (applyErrorInterceptors client Sample.server_error Sample.world))
     = ""
  /\ location_href
       (fst (Sample.marking "/seen" Sample.server_error Sample.world))
     = "/seen".
Proof.
  cbv zeta. split; [reflexivity|]. split; [discriminate|].
  split; [|split; reflexivity].
  intros [w' H]. inversion H as [|i l w0 w1 w2 v Hi Hrest]; subst.
  discriminate Hi.
Qed.
End ErrorChainExamples.

(** ** The request pipeline *)

Section PipelineFacts.
Import Js Api Contract.
Variable P : Platform.
Variable this : ApiService.

(** The five ways out of the [try] block. *)

Lemma try_request_chain_throws url cfg w w1 x :
  applyRequestInterceptors this (with_default_headers this cfg) w = (w1, Threw x) ->
  makeRequest_try P this url cfg w = (w1, Threw x).
Proof. intros H. unfold makeRequest_try, bind. now rewrite H. Qed.

Lemma try_fetch_rejects url cfg w w1 fc w2 x :
  applyRequestInterceptors this (with_default_headers this cfg) w = (w1, Returned fc) ->
  fetch_with_abort P (buildUrl this url (RequestConfig.baseURL fc)) fc
    (effective_timeout this fc) w1 = (w2, Threw x) ->
  makeRequest_try P this url cfg w = (w2, Threw x).
Proof.
  intros H1 H2. unfold makeRequest_try, bind. rewrite H1.
  fold (effective_timeout this fc). now rewrite H2.
Qed.

Lemma try_body_rejects url cfg w w1 fc w2 response x :
  applyRequestInterceptors this (with_default_headers this cfg) w = (w1, Returned fc) ->
  fetch_with_abort P (buildUrl this url (RequestConfig.baseURL fc)) fc
    (effective_timeout this fc) w1 = (w2, Returned response) ->
  Response.ok response = true ->
  Response.json response = Threw x ->
  makeRequest_try P this url cfg w = (w2, Threw x).
Proof.
  intros H1 H2 Hok Hj. unfold makeRequest_try, bind. rewrite H1.
  fold (effective_timeout this fc). rewrite H2, Hok. simpl.
  unfold lift. now rewrite Hj.
Qed.

Lemma try_success url cfg w w1 fc w2 response data :
  applyRequestInterceptors this (with_default_headers this cfg) w = (w1, Returned fc) ->
  fetch_with_abort P (buildUrl this url (RequestConfig.baseURL fc)) fc
    (effective_timeout this fc) w1 = (w2, Returned response) ->
  Response.ok response = true ->
  Response.json response = Returned data ->
  makeRequest_try P this url cfg w = (w2, Returned (TailResponse data)).
Proof.
  intros H1 H2 Hok Hj. unfold makeRequest_try, bind. rewrite H1.
  fold (effective_timeout this fc). rewrite H2, Hok. simpl.
  unfold lift. now rewrite Hj.
Qed.

Lemma try_http_error url cfg w w1 fc w2 response :
  applyRequestInterceptors this (with_default_headers this cfg) w = (w1, Returned fc) ->
  fetch_with_abort P (buildUrl this url (RequestConfig.baseURL fc)) fc
    (effective_timeout this fc) w1 = (w2, Returned response) ->
  Response.ok response = false ->
  makeRequest_try P this url cfg w
  = match http_error response w2 with
    | (w3, Returned apiError) => (w3, Returned (TailError apiError))
    | (w3, Threw x) => (w3, Threw x)
    end.
Proof.
  intros H1 H2 Hok. unfold makeRequest_try, bind. rewrite H1.
  fold (effective_timeout this fc). rewrite H2, Hok. simpl.
  destruct (http_error response w2) as [w3 [e|x]]; reflexivity.
Qed.

(** [fetch] under the timer. *)

Lemma timer_delay_in_range timeout :
  timeout <= 2147483647 -> timer_delay timeout = timeout.
Proof.
  intros H. unfold timer_delay.
  destruct (Z.ltb_spec 2147483647 timeout); [lia | reflexivity].
Qed.


Lemma fetch_in_time fullUrl init timeout w :
  latency (network P w fullUrl init) <= timeout <= 2147483647 ->
  fetch_with_abort P fullUrl init timeout w
  = (fetched w fullUrl init, settles (network P w fullUrl init)).
Proof.
  intros H. unfold fetch_with_abort.
  rewrite timer_delay_in_range by lia.
  destruct (Z.ltb_spec timeout (latency (network P w fullUrl init))); [lia|].
  reflexivity.
Qed.


Lemma fetch_is_logged fullUrl init timeout w :
  fetch_log (fst (fetch_with_abort P fullUrl init timeout w))
  = fetch_log w ++ [(fullUrl, init)].
Proof.
  unfold fetch_with_abort.
  destruct (timer_delay timeout <? latency (network P w fullUrl init)); reflexivity.
Qed.

(** The error of a response that is not [ok]. *)

Lemma http_error_of_null response w :
  json_or_empty response = VNull ->
  http_error response w
  = (w, Threw (ExError "TypeError"
                 "Cannot read properties of null (reading 'message')")).
Proof. intros H. unfold http_error. rewrite H. reflexivity. Qed.

Lemma http_error_of_body response w :
  json_or_empty response <> VNull ->
  json_or_empty response <> VUndefined ->
  exists m c d,
    get_prop (json_or_empty response) "message" = Returned m
    /\ get_prop (json_or_empty response) "code" = Returned c
    /\ get_prop (json_or_empty response) "details" = Returned d
    /\ http_error response w
       = (w, match
               ToString
                 (or_else m
                    (VStr ("HTTP " +:+ Z_to_string (Response.status response)
                           +:+ ": " +:+ Response.statusText response)))
             with
             | Returned text =>
                 Returned
                   (mkApiClientError text (Response.status response)
                      (or_else c (VStr "HTTP_ERROR")) d)
             | Threw x => Threw x
             end).
Proof.
  intros Hn Hu. unfold http_error.
  destruct (json_or_empty response) as [| |b|z| |s|l|m] eqn:Hbody;
    try congruence;
    do 3 eexists; (repeat split; try reflexivity);
    unfold bind, lift, ret; cbn [get_prop];
    match goal with
    | |- context [ToString ?v] => destruct (ToString v)
    end; reflexivity.
Qed.

(** Leaving [http_error] changes nothing in the world. *)
Lemma http_error_keeps_world response w :
  fst (http_error response w) = w.
Proof.
  unfold http_error, bind, lift, ret.
  destruct (get_prop (json_or_empty response) "message"); [|reflexivity].
  destruct (get_prop (json_or_empty response) "code"); [|reflexivity].
  destruct (get_prop (json_or_empty response) "details"); [|reflexivity].
  match goal with
  | |- context [ToString ?v] => destruct (ToString v)
  end; reflexivity.
Qed.
End PipelineFacts.

Section PipelineClaims.
Import Js Api Contract.
Variable P : Platform.
Variable this : ApiService.

Lemma makeRequest_catch_wraps (x : exn) (w : World) :
  makeRequest_catch P this x w
  = if instanceof_ApiClientError x then (w, Threw x)
    else applyErrorInterceptors this
           (mkApiClientError (getErrorMessage P x) 0 (VStr "NETWORK_ERROR") VUndefined)
           w.
Proof. unfold makeRequest_catch. destruct (instanceof_ApiClientError x); reflexivity. Qed.

Lemma makeRequest_of_thrown url cfg w w1 x :
  makeRequest_try P this url cfg w = (w1, Threw x) ->
  makeRequest P this url cfg w = makeRequest_catch P this x w1.
Proof. intros H. unfold makeRequest. now rewrite H. Qed.

(** A response that is not [ok] and whose body does not decode to [null]:
    when the message prints, the error that enters the error chain carries
    the status of the response; message and code are the body's when
    truthy, else the generic ones; the details are the body's. When the
    message does not print, what the conversion throws is handled as every
    other failure inside the [try] block. *)
Lemma http_status_reaches_error_chain url cfg w w1 fc w2 response :
  applyRequestInterceptors this (with_default_headers this cfg) w = (w1, Returned fc) ->
  fetch_with_abort P (buildUrl this url (RequestConfig.baseURL fc)) fc
    (effective_timeout this fc) w1 = (w2, Returned response) ->
  Response.ok response = false ->
  json_or_empty response <> VNull ->
  json_or_empty response <> VUndefined ->
  exists m c d,
    get_prop (json_or_empty response) "message" = Returned m
    /\ get_prop (json_or_empty response) "code" = Returned c
    /\ get_prop (json_or_empty response) "details" = Returned d
    /\ (forall text,
          ToString
            (or_else m
               (VStr ("HTTP " +:+ Z_to_string (Response.status response)
                      +:+ ": " +:+ Response.statusText response)))
          = Returned text ->
          makeRequest P this url cfg w
          = applyErrorInterceptors this
              (mkApiClientError text (Response.status response)
                 (or_else c (VStr "HTTP_ERROR")) d)
              w2)
    /\ (forall x,
          ToString
            (or_else m
               (VStr ("HTTP " +:+ Z_to_string (Response.status response)
                      +:+ ": " +:+ Response.statusText response)))
          = Threw x ->
          makeRequest P this url cfg w = makeRequest_catch P this x w2).
Proof.
  intros H1 H2 Hok Hn Hu.
  destruct (http_error_of_body response w2 Hn Hu) as (m & c & d & Hm & Hc & Hd & He).
  exists m, c, d. repeat split; try assumption.
  - intros text Ht. unfold makeRequest.
    rewrite (try_http_error P this url cfg w w1 fc w2 response H1 H2 Hok).
    now rewrite He, Ht.
  - intros x Ht. unfold makeRequest.
    rewrite (try_http_error P this url cfg w w1 fc w2 response H1 H2 Hok).
    now rewrite He, Ht.
Qed.


(** C4, as the code has it. What a request interceptor throws, what
    [fetch] rejects with and what decoding the body of a success response
    rejects with is re-raised as it is when it is an [ApiClientError],
    and otherwise wrapped into one with status 0 and code [NETWORK_ERROR]
    that goes through the error chain. What a response interceptor throws
    reaches the caller as thrown, without the error chain. *)
Theorem failures_are_wrapped url cfg w :
  (forall w1 x,
     applyRequestInterceptors this (with_default_headers this cfg) w = (w1, Threw x) ->
     makeRequest P this url cfg w
     = if instanceof_ApiClientError x then (w1, Threw x)
       else applyErrorInterceptors this
              (mkApiClientError (getErrorMessage P x) 0 (VStr "NETWORK_ERROR")
                 VUndefined) w1)
  /\ (forall w1 fc w2 x,
        applyRequestInterceptors this (with_default_headers this cfg) w
        = (w1, Returned fc) ->
        fetch_with_abort P (buildUrl this url (RequestConfig.baseURL fc)) fc
          (num_or_else (RequestConfig.timeout fc) (ApiConfig.timeout (config this)))
          w1 = (w2, Threw x) ->
        makeRequest P this url cfg w
        = if instanceof_ApiClientError x then (w2, Threw x)
          else applyErrorInterceptors this
                 (mkApiClientError (getErrorMessage P x) 0 (VStr "NETWORK_ERROR")
                    VUndefined) w2)
  /\ (forall w1 fc w2 response x,
        applyRequestInterceptors this (with_default_headers this cfg) w
        = (w1, Returned fc) ->
        fetch_with_abort P (buildUrl this url (RequestConfig.baseURL fc)) fc
          (num_or_else (RequestConfig.timeout fc) (ApiConfig.timeout (config this)))
          w1 = (w2, Returned response) ->
        Response.ok response = true ->
        Response.json response = Threw x ->
        makeRequest P this url cfg w
        = if instanceof_ApiClientError x then (w2, Threw x)
          else applyErrorInterceptors this
                 (mkApiClientError (getErrorMessage P x) 0 (VStr "NETWORK_ERROR")
                    VUndefined) w2)
  /\ (forall w1 fc w2 response data w3 x,
        applyRequestInterceptors this (with_default_headers this cfg) w
        = (w1, Returned fc) ->
        fetch_with_abort P (buildUrl this url (RequestConfig.baseURL fc)) fc
          (num_or_else (RequestConfig.timeout fc) (ApiConfig.timeout (config this)))
          w1 = (w2, Returned response) ->
        Response.ok response = true ->
        Response.json response = Returned data ->
        applyResponseInterceptors this data w2 = (w3, Threw x) ->
        makeRequest P this url cfg w = (w3, Threw x)).
Proof.
  repeat split.
  - intros w1 x H.
    rewrite (makeRequest_of_thrown url cfg w w1 x
               (try_request_chain_throws P this url cfg w w1 x H)).
    apply makeRequest_catch_wraps.
  - intros w1 fc w2 x H1 H2.
    rewrite (makeRequest_of_thrown url cfg w w2 x
               (try_fetch_rejects P this url cfg w w1 fc w2 x H1 H2)).
    apply makeRequest_catch_wraps.
  - intros w1 fc w2 response x H1 H2 Hok Hj.
    rewrite (makeRequest_of_thrown url cfg w w2 x
               (try_body_rejects P this url cfg w w1 fc w2 response x H1 H2 Hok Hj)).
    apply makeRequest_catch_wraps.
  - intros w1 fc w2 response data w3 x H1 H2 Hok Hj Hr.
    unfold makeRequest.
    rewrite (try_success P this url cfg w w1 fc w2 response data H1 H2 Hok Hj).
    exact Hr.
Qed.
End PipelineClaims.

(** ** The request and response interceptors *)

Section InterceptorFacts.
Import Js Api Contract.
Variable P : Platform.

Lemma request_loop_app (l1 l2 : list RequestInterceptor) :
  forall c w,
    request_loop (l1 ++ l2) c w
    = match request_loop l1 c w with
      | (w', Returned c') => request_loop l2 c' w'
      | (w', Threw x) => (w', Threw x)
      end.
Proof.
  induction l1 as [|i l1 IH]; intros c w; simpl; [reflexivity|].
  unfold bind. destruct (i c w) as [w1 [c1|x]]; [apply IH | reflexivity].
Qed.

Lemma registered_in_order (l : list RequestInterceptor) :
  forall this,
    requestInterceptors (fold_left addRequestInterceptor l this)
    = requestInterceptors this ++ l.
Proof.
  induction l as [|i l IH]; intros this; simpl.
  - now rewrite app_nil_r.
  - rewrite IH. simpl. now rewrite <- app_assoc.
Qed.

Lemma pure_request_loop (fs : list (RequestConfig.t -> RequestConfig.t)) :
  forall c w,
    request_loop (map (fun f c => ret (f c)) fs) c w
    = (w, Returned (fold_left (fun c f => f c) fs c)).
Proof. induction fs as [|f fs IH]; intros c w; simpl; [reflexivity | apply IH]. Qed.

Lemma merged_headers_lookup (this : ApiService) (cfg : RequestConfig.t) (k : string) :
  exists merged,
    RequestConfig.headers (with_default_headers this cfg) = Some merged
    /\ merged !! k
       = match default ∅ (RequestConfig.headers cfg) !! k with
         | Some v => Some v
         | None => ApiConfig.headers (config this) !! k
         end.
Proof.
  eexists. split; [reflexivity|]. rewrite lookup_union.
  destruct (default ∅ (RequestConfig.headers cfg) !! k);
    destruct (ApiConfig.headers (config this) !! k); reflexivity.
Qed.

Lemma try_logs_one_fetch (this : ApiService) url cfg w w1 fc :
  applyRequestInterceptors this (with_default_headers this cfg) w = (w1, Returned fc) ->
  fetch_log (fst (makeRequest_try P this url cfg w))
  = fetch_log w1 ++ [(buildUrl this url (RequestConfig.baseURL fc), fc)].
Proof.
  intros H. unfold makeRequest_try, bind. rewrite H.
  pose proof (fetch_is_logged P (buildUrl this url (RequestConfig.baseURL fc)) fc
                (num_or_else (RequestConfig.timeout fc)
                   (ApiConfig.timeout (config this))) w1) as Hlog.
  destruct (fetch_with_abort P _ fc _ w1) as [w2 [response|x]]; simpl in *;
    [|exact Hlog].
  destruct (negb (Response.ok response)).
  - pose proof (http_error_keeps_world response w2) as Hk.
    destruct (http_error response w2) as [w3 [e|x]]; simpl in Hk; subst w3;
      exact Hlog.
  - unfold lift. destruct (Response.json response); exact Hlog.
Qed.

(** C8. An interceptor is registered behind the ones already there, and
    the chain runs them in that order, each on the configuration the one
    before it returned and in the world it left: running the chain with
    one more interceptor is running the chain and then that interceptor.
    The chain starts from the options of the call: its method, body,
    timeout and base URL as the caller gave them, and as headers the
    default headers of the client under the headers of the call. [fetch] is
    called once the chain has returned, with the configuration the chain
    returned, and is not called when an interceptor throws. *)
Theorem request_interceptors_run_in_order (this : ApiService) (url : string)
    (cfg : RequestConfig.t) (w : World) :
  (forall i, requestInterceptors (addRequestInterceptor this i)
             = requestInterceptors this ++ [i])
  /\ (forall l, requestInterceptors (fold_left addRequestInterceptor l this)
                = requestInterceptors this ++ l)
  /\ (forall i c,
        applyRequestInterceptors (addRequestInterceptor this i) c w
        = match applyRequestInterceptors this c w with
          | (w', Returned c') => i c' w'
          | (w', Threw x) => (w', Threw x)
          end)
  /\ (forall fs c,
        requestInterceptors this = map (fun f c => ret (f c)) fs ->
        applyRequestInterceptors this c w
        = (w, Returned (fold_left (fun c f => f c) fs c)))
  /\ (RequestConfig.method (with_default_headers this cfg) = RequestConfig.method cfg
      /\ RequestConfig.body (with_default_headers this cfg) = RequestConfig.body cfg
      /\ RequestConfig.timeout (with_default_headers this cfg)
         = RequestConfig.timeout cfg
      /\ RequestConfig.baseURL (with_default_headers this cfg)
         = RequestConfig.baseURL cfg)
  /\ (forall k,
        exists merged,
          RequestConfig.headers (with_default_headers this cfg) = Some merged
          /\ merged !! k
             = match default ∅ (RequestConfig.headers cfg) !! k with
               | Some v => Some v
               | None => ApiConfig.headers (config this) !! k
               end)
  /\ (forall w1 fc,
        applyRequestInterceptors this (with_default_headers this cfg) w
        = (w1, Returned fc) ->
        fetch_log (fst (makeRequest_try P this url cfg w))
        = fetch_log w1 ++ [(buildUrl this url (RequestConfig.baseURL fc), fc)])
  /\ (forall w1 x,
        applyRequestInterceptors this (with_default_headers this cfg) w
        = (w1, Threw x) ->
        fst (makeRequest_try P this url cfg w) = w1).
Proof.
  split; [reflexivity|]. split; [intros l; apply registered_in_order|].
  split.
  { intros i c. unfold applyRequestInterceptors. simpl.
    rewrite request_loop_app.
    destruct (request_loop (requestInterceptors this) c w) as [w' [c'|x]];
      [|reflexivity].
    simpl. unfold bind. destruct (i c' w') as [w2 [c2|x]]; reflexivity. }
  split.
  { intros fs c H. unfold applyRequestInterceptors. rewrite H.
    apply pure_request_loop. }
  split; [repeat split|].
  split; [intros k; apply merged_headers_lookup|].
  split.
  - intros w1 fc H. now apply try_logs_one_fetch.
  - intros w1 x H. now rewrite (try_request_chain_throws P this url cfg w w1 x H).
Qed.

Lemma default_response_interceptor_unwraps (response : value) (w : World) :
  default_response_interceptor response w
  = (w, Returned
          match response with
          | VObj m => default response (m !! "data")
          | _ => response
          end).
Proof.
  unfold default_response_interceptor.
  destruct response as [| |b|z| |s|l|m]; try reflexivity.
  simpl. destruct (m !! "data") as [d|] eqn:Hd.
  - rewrite bool_decide_eq_true_2 by eauto. reflexivity.
  - rewrite bool_decide_eq_false_2 by (intros [? ?]; discriminate). reflexivity.
Qed.

(** C6. With the default response interceptor as the response chain, a
    success response whose payload is an object with a [data] property
    gives the caller the value of that property, and a payload that is not
    an object or has no such property gives the caller the payload. *)
Theorem envelope_is_unwrapped (this : ApiService) url cfg w w1 fc w2 response payload :
  responseInterceptors this = [default_response_interceptor] ->
  applyRequestInterceptors this (with_default_headers this cfg) w = (w1, Returned fc) ->
  fetch_with_abort P (buildUrl this url (RequestConfig.baseURL fc)) fc
    (num_or_else (RequestConfig.timeout fc) (ApiConfig.timeout (config this)))
    w1 = (w2, Returned response) ->
  Response.ok response = true ->
  Response.json response = Returned payload ->
  (forall m d, payload = VObj m -> m !! "data" = Some d ->
               makeRequest P this url cfg w = (w2, Returned d))
  /\ ((forall m, payload = VObj m -> m !! "data" = None) ->
      makeRequest P this url cfg w = (w2, Returned payload)).
Proof.
  intros Hri H1 H2 Hok Hj.
  assert (Hrun : makeRequest P this url cfg w
                 = (w2, Returned match payload with
                                 | VObj m => default payload (m !! "data")
                                 | _ => payload
                                 end)).
  { unfold makeRequest.
    rewrite (try_success P this url cfg w w1 fc w2 response payload H1 H2 Hok Hj).
    unfold applyResponseInterceptors. rewrite Hri. simpl. unfold bind.
    rewrite default_response_interceptor_unwraps. reflexivity. }
  split.
  - intros m d -> Hd. rewrite Hrun, Hd. reflexivity.
  - intros Hno. rewrite Hrun. destruct payload; try reflexivity.
    now rewrite (Hno _ eq_refl).
Qed.
End InterceptorFacts.

(** ** The default client *)

Section DefaultClientFacts.
Import Js Api Contract.
Variable P : Platform.
Variable env : Env.EnvConfig.

Lemma default_request_interceptor_returns (c : RequestConfig.t) (w : World) :
  exists fc,
    default_request_interceptor c w = (w, Returned fc)
    /\ RequestConfig.method fc = RequestConfig.method c
    /\ RequestConfig.body fc = RequestConfig.body c
    /\ RequestConfig.timeout fc = RequestConfig.timeout c
    /\ RequestConfig.baseURL fc = RequestConfig.baseURL c.
Proof.
  unfold default_request_interceptor.
  destruct (localStorage w !! "auth_token") as [token|];
    [destruct (String.eqb token "")|]; eexists; repeat split.
Qed.

Lemma apiClient_error_chain_keeps_fetch_log (error : ApiClientError) (w : World) :
  fetch_log (fst (applyErrorInterceptors (apiClient env) error w)) = fetch_log w.
Proof.
  unfold applyErrorInterceptors, apiClient. simpl. unfold bind, default_error_interceptor.
  destruct (status error =? 401); destruct (Env.ENABLE_DEBUG env); reflexivity.
Qed.

Lemma apiClient_catch_keeps_fetch_log (x : exn) (w : World) :
  fetch_log (fst (makeRequest_catch P (apiClient env) x w)) = fetch_log w.
Proof.
  unfold makeRequest_catch. destruct (instanceof_ApiClientError x);
    [reflexivity | apply apiClient_error_chain_keeps_fetch_log].
Qed.

Lemma apiClient_response_chain_keeps_world (data : value) (w : World) :
  fst (applyResponseInterceptors (apiClient env) data w) = w.
Proof.
  unfold applyResponseInterceptors, apiClient. simpl. unfold bind.
  now rewrite default_response_interceptor_unwraps.
Qed.

(** Every call through [apiClient] calls [fetch] exactly once, with the
    configuration the default request interceptor returned. *)
Lemma apiClient_issues_one_fetch (url : string) (cfg : RequestConfig.t) (w : World) :
  exists fc,
    applyRequestInterceptors (apiClient env)
      (with_default_headers (apiClient env) cfg) w = (w, Returned fc)
    /\ RequestConfig.method fc = RequestConfig.method cfg
    /\ RequestConfig.body fc = RequestConfig.body cfg
    /\ fetch_log (fst (makeRequest P (apiClient env) url cfg w))
       = fetch_log w
         ++ [(buildUrl (apiClient env) url (RequestConfig.baseURL fc), fc)].
Proof.
  destruct (default_request_interceptor_returns
              (with_default_headers (apiClient env) cfg) w)
    as (fc & Hfc & Hm & Hb & _ & _).
  assert (Hchain : applyRequestInterceptors (apiClient env)
                     (with_default_headers (apiClient env) cfg) w = (w, Returned fc)).
  { unfold applyRequestInterceptors. change (requestInterceptors (apiClient env))
      with [default_request_interceptor]. simpl. unfold bind. now rewrite Hfc. }
  exists fc. split; [exact Hchain|]. split; [exact Hm|]. split; [exact Hb|].
  pose proof (try_logs_one_fetch P (apiClient env) url cfg w w fc Hchain) as Hlog.
  unfold makeRequest.
  destruct (makeRequest_try P (apiClient env) url cfg w) as [w2 [[e|d]|x]];
    simpl in Hlog.
  - now rewrite apiClient_error_chain_keeps_fetch_log.
  - now rewrite apiClient_response_chain_keeps_world.
  - now rewrite apiClient_catch_keeps_fetch_log.
Qed.
End DefaultClientFacts.

Section MethodFacts.
Import Js Api Contract.
Variable P : Platform.

Lemma falsy_values (data : value) :
  truthy data = false
  <-> (data = VUndefined \/ data = VNull \/ data = VNum 0 \/ data = VBool false
       \/ data = VStr "" \/ data = VNaN).
Proof.
  split.
  - destruct data as [| |b|z| |s|l|m]; unfold truthy; intros H;
      try discriminate H; auto 6.
    + subst b. auto 6.
    + apply negb_false_iff in H. apply Z.eqb_eq in H. subst z. auto 6.
    + apply negb_false_iff in H. apply String.eqb_eq in H. subst s. auto 6.
  - intros [-> | [-> | [-> | [-> | [-> | ->]]]]]; reflexivity.
Qed.

(** C10. [post], [put] and [patch] hand to the pipeline the options of the
    call with their method and with the serialization of [data] as the
    body when [data] is truthy, and with no body when it is falsy, that
    is [undefined], [null], 0, [false], the empty string or [NaN],
    whatever body the options carried. Through [apiClient] that is the
    one request the call sends. *)
Theorem falsy_data_sends_no_body (env : Env.EnvConfig) (this : ApiService)
    (url : string) (data : value) (cfg : option RequestConfig.t) (w : World) :
  let body := if truthy data then JSON_stringify P data else None in
  let c := default RequestConfig.empty cfg in
  let handed (method : string) :=
    RequestConfig.mk (Some method) (RequestConfig.headers c) body
      (RequestConfig.timeout c) (RequestConfig.baseURL c) in
  let sent (call : M value) (method : string) :=
    exists fc,
      fetch_log (fst (call w))
      = fetch_log w ++ [(buildUrl (apiClient env) url (RequestConfig.baseURL fc), fc)]
      /\ RequestConfig.method fc = Some method
      /\ RequestConfig.body fc = body in
  (truthy data = false
   <-> (data = VUndefined \/ data = VNull \/ data = VNum 0 \/ data = VBool false
        \/ data = VStr "" \/ data = VNaN))
  /\ post P this url data cfg = makeRequest P this url (handed "POST")
  /\ put P this url data cfg = makeRequest P this url (handed "PUT")
  /\ patch P this url data cfg = makeRequest P this url (handed "PATCH")
  /\ sent (post P (apiClient env) url data cfg) "POST"
  /\ sent (put P (apiClient env) url data cfg) "PUT"
  /\ sent (patch P (apiClient env) url data cfg) "PATCH".
Proof.
  cbv zeta. split; [apply falsy_values|].
  do 3 (split; [reflexivity|]).
  unfold post, put, patch.
  repeat split.
  all: match goal with
       | |- context [makeRequest _ _ _ ?c] =>
           destruct (apiClient_issues_one_fetch P env url c w)
             as (fc & _ & Hm & Hb & Hlog)
       end; exists fc; (split; [exact Hlog|]); split; assumption.
Qed.
End MethodFacts.

(** ** The pipeline on concrete calls *)

Section PipelineExamples.
Import Js Api Contract.

(** C1 at a reply with status 500 whose body is the JSON text [null]:
    reading [errorData.message] throws inside the [try] block, and the
    caller gets an error with status 0 and code [NETWORK_ERROR], not one
    with status 500. *)
Theorem null_error_body_loses_status :
  settles Sample.null_500
  = Returned (Response.mk 500 "Internal Server Error" (Returned VNull))
  /\ snd (get (Sample.platform Sample.null_500) (apiClient Sample.env) "/users" None
            Sample.world)
     = Threw (ExApi (mkApiClientError
                       "Cannot read properties of null (reading 'message')"
                       0 (VStr "NETWORK_ERROR") VUndefined)).
Proof. split; vm_compute; reflexivity. Qed.

(** With a structured body, with a body that does not decode, the status
    is the one of the response. *)
Example http_error_examples :
  snd (get (Sample.platform Sample.not_found) (apiClient Sample.env) "/users/7" None
         Sample.world)
  = Threw (ExApi (mkApiClientError "No such user" 404 (VStr "NO_USER") VUndefined))
  /\ snd (get (Sample.platform Sample.html_502) (apiClient Sample.env) "/users" None
            Sample.world)
     = Threw (ExApi (mkApiClientError "HTTP 502: Bad Gateway" 502 (VStr "HTTP_ERROR")
                       VUndefined)).
Proof. split; vm_compute; reflexivity. Qed.

(** A message that does not print. A reply with status 401 whose message
    is an object with a property [toString] makes the constructor of the
    error throw inside the [try] block: the caller gets status 0 and the
    tokens stay. *)
Example unprintable_message_loses_status :
  let reply :=
    mkNetReply 40
      (Returned
         (Response.mk 401 "Unauthorized"
            (Returned
               (VObj {[ "message" := VObj {[ "toString" := VNum 1 ]} ]})))) in
  makeRequest (Sample.platform reply) (apiClient Sample.env) "/users"
    (with_method None "GET") Sample.logged_in
  = (mkWorld (localStorage Sample.logged_in) "/home"
       [mkApiClientError "Cannot convert object to primitive value" 0
          (VStr "NETWORK_ERROR") VUndefined]
       [(Sample.users_url,
         RequestConfig.mk (Some "GET")
           (Some (<["Authorization" := "Bearer t1"]>
                    {[ "Content-Type" := "application/json" ]}))
           None None None)]
       [],
     Threw (ExApi (mkApiClientError "Cannot convert object to primitive value" 0
                     (VStr "NETWORK_ERROR") VUndefined))).
Proof. vm_compute. reflexivity. Qed.

(** A timeout that the timer does not take: under a timeout of 2^31
    milliseconds a reply after 40 ms comes too late. *)
Example overflowing_timeout_aborts :
  abort_log
    (fst (makeRequest (Sample.platform Sample.ok_users) (apiClient Sample.env) "/users"
            (RequestConfig.mk (Some "GET") None None (Some 2147483648) None)
            Sample.world))
  = [Sample.users_url].
Proof. vm_compute. reflexivity. Qed.



(** The theorem at a connection that fails. *)
Lemma failures_are_wrapped_witness :
  makeRequest (Sample.platform Sample.down) (apiClient Sample.env) "/users"
    (with_method None "GET") Sample.world
  = applyErrorInterceptors (apiClient Sample.env)
      (mkApiClientError "Failed to fetch" 0 (VStr "NETWORK_ERROR") VUndefined)
      (fetched Sample.world Sample.users_url Sample.get_config).
Proof.
  apply (proj1 (proj2
           (failures_are_wrapped (Sample.platform Sample.down) (apiClient Sample.env)
              "/users" (with_method None "GET") Sample.world))
           Sample.world Sample.get_config
           (fetched Sample.world Sample.users_url Sample.get_config)
           (ExError "TypeError" "Failed to fetch"));
    vm_compute; reflexivity.
Defined.

(** C4 as worded fails: what a response interceptor throws is not wrapped
    and does not go through the error chain; the caller gets it as thrown,
    and the default error interceptor, which would have logged the error,
    has not run. *)
Lemma response_interceptor_error_is_not_wrapped :
  let this :=
    addErrorInterceptor
      (addResponseInterceptor Sample.service Sample.failing_response)
      (default_error_interceptor Sample.env) in
  Env.ENABLE_DEBUG Sample.env = true
  /\ get (Sample.platform Sample.ok_users) this "/users" None Sample.world
     = (fetched Sample.world Sample.users_url Sample.get_config,
        Threw (ExError "Error" "bad payload"))
  /\ instanceof_ApiClientError (ExError "Error" "bad payload") = false
  /\ console_error
       (fst (get (Sample.platform Sample.ok_users) this "/users" None Sample.world))
     = []
  /\ ~ (exists e w',
          get (Sample.platform Sample.ok_users) this "/users" None Sample.world
          = (w', Threw (ExApi e))).
Proof.
  cbv zeta.
  assert (H : get (Sample.platform Sample.ok_users)
                (addErrorInterceptor
                   (addResponseInterceptor Sample.service Sample.failing_response)
                   (default_error_interceptor Sample.env))
                "/users" None Sample.world
              = (fetched Sample.world Sample.users_url Sample.get_config,
                 Threw (ExError "Error" "bad payload")))
    by (vm_compute; reflexivity).
  split; [reflexivity|]. split; [exact H|]. split; [reflexivity|].
  split; [rewrite H; reflexivity|].
  intros (e & w' & He). rewrite H in He. discriminate He.
Qed.

(** The theorem at [GET /users] answered by 200 with an envelope. *)
Lemma envelope_is_unwrapped_witness :
  makeRequest (Sample.platform Sample.ok_users) (apiClient Sample.env) "/users"
    (with_method None "GET") Sample.world
  = (fetched Sample.world Sample.users_url Sample.get_config,
     Returned Sample.users).
Proof.
  apply (proj1
           (envelope_is_unwrapped (Sample.platform Sample.ok_users)
              (apiClient Sample.env) "/users" (with_method None "GET")
              Sample.world Sample.world Sample.get_config
              (fetched Sample.world Sample.users_url Sample.get_config)
              (Response.mk 200 "OK"
                 (Returned (VObj (<["data" := Sample.users]>
                                    {[ "success" := VBool true ]}))))
              (VObj (<["data" := Sample.users]> {[ "success" := VBool true ]}))
              eq_refl ltac:(vm_compute; reflexivity) ltac:(vm_compute; reflexivity)
              eq_refl eq_refl)
           (<["data" := Sample.users]> {[ "success" := VBool true ]})
           Sample.users eq_refl ltac:(vm_compute; reflexivity)).
Defined.

(** The theorem at a client with three interceptors, registered in the
    order: the default one of [apiClient], one that stamps [a], one that
    stamps [b]. The call has a header, a timeout and a base URL of its own.
    [fetch] gets the method, timeout and base URL of the call, the header of
    the call next to the default one, the token that the first interceptor
    read from the storage, and the stamps in the order [ab]. *)
Lemma request_interceptors_run_in_order_witness :
  let client :=
    addRequestInterceptor
      (addRequestInterceptor (apiClient Sample.env) (Sample.stamping "a"))
      (Sample.stamping "b") in
  let call :=
    RequestConfig.mk (Some "GET") (Some {[ "Accept" := "text/csv" ]}) None
      (Some 5000) (Some "http://host/v2/") in
  fetch_log
    (fst (makeRequest_try (Sample.platform Sample.ok_users) client "/users" call
            Sample.logged_in))
  = [("http://host/v2/users",
      RequestConfig.mk (Some "GET")
        (Some (<["X-Trace" := "ab"]>
                 (<["Authorization" := "Bearer t1"]>
                    (<["Accept" := "text/csv"]>
                       {[ "Content-Type" := "application/json" ]}))))
        None (Some 5000) (Some "http://host/v2/"))].
Proof.
  cbv zeta.
  apply (proj1 (proj2 (proj2 (proj2 (proj2 (proj2 (proj2
           (request_interceptors_run_in_order (Sample.platform Sample.ok_users)
              (addRequestInterceptor
                 (addRequestInterceptor (apiClient Sample.env) (Sample.stamping "a"))
                 (Sample.stamping "b"))
              "/users"
              (RequestConfig.mk (Some "GET") (Some {[ "Accept" := "text/csv" ]}) None
                 (Some 5000) (Some "http://host/v2/"))
              Sample.logged_in)))))))
           Sample.logged_in
           (RequestConfig.mk (Some "GET")
              (Some (<["X-Trace" := "ab"]>
                       (<["Authorization" := "Bearer t1"]>
                          (<["Accept" := "text/csv"]>
                             {[ "Content-Type" := "application/json" ]}))))
              None (Some 5000) (Some "http://host/v2/"))).
  vm_compute; reflexivity.
Defined.

(** The scenario of a [GET /users] against the base
    [http://localhost:3001/api], with no token stored, answered by 200 with
    an envelope. *)
Example get_users_scenario :
  let client :=
    addErrorInterceptor
      (addResponseInterceptor
         (addRequestInterceptor
            (new_ApiService Sample.env
               (PartialApiConfig.mk (Some "http://localhost:3001/api") None None))
            default_request_interceptor)
         default_response_interceptor)
      (default_error_interceptor Sample.env) in
  get (Sample.platform Sample.ok_users) client "/users" None Sample.world
  = (fetched Sample.world "http://localhost:3001/api/users" Sample.get_config,
     Returned Sample.users).
Proof. vm_compute. reflexivity. Qed.

Example post_examples :
  RequestConfig.body
    (with_method_body None "POST" (body_of (Sample.platform Sample.ok_users) (VNum 0)))
  = None
  /\ RequestConfig.body
       (with_method_body None "POST"
          (body_of (Sample.platform Sample.ok_users) (VObj {[ "id" := VNum 7 ]})))
     = Some ("{" +:+ Sample.dquote +:+ "id" +:+ Sample.dquote +:+ ":7}").
Proof. split; vm_compute; reflexivity. Qed.
End PipelineExamples.

(** * Further properties of the client *)

Section ResponseChainFacts.
Import Js Api Contract.

Lemma response_loop_app (l1 l2 : list ResponseInterceptor) :
  forall d w,
    response_loop (l1 ++ l2) d w
    = match response_loop l1 d w with
      | (w', Returned d') => response_loop l2 d' w'
      | (w', Threw x) => (w', Threw x)
      end.
Proof.
  induction l1 as [|i l1 IH]; intros d w; simpl; [reflexivity|].
  unfold bind. destruct (i d w) as [w1 [d1|x]]; [apply IH | reflexivity].
Qed.

(** The response chain. A response interceptor is registered behind the
    ones already there and the other chains stay as they are; the chain
    runs the interceptors in that order, each on the payload the one before
    it returned; and once an interceptor throws, the ones behind it do not
    run and the caller gets what was thrown. *)
Theorem response_interceptors_run_in_order (this : ApiService) (w : World) :
  (forall i,
     responseInterceptors (addResponseInterceptor this i)
     = responseInterceptors this ++ [i]
     /\ requestInterceptors (addResponseInterceptor this i) = requestInterceptors this
     /\ errorInterceptors (addResponseInterceptor this i) = errorInterceptors this)
  /\ (forall i d,
        applyResponseInterceptors (addResponseInterceptor this i) d w
        = match applyResponseInterceptors this d w with
          | (w', Returned d') => i d' w'
          | (w', Threw x) => (w', Threw x)
          end)
  /\ (forall l1 i l2 d w1 d1 w2 x,
        responseInterceptors this = l1 ++ i :: l2 ->
        response_loop l1 d w = (w1, Returned d1) ->
        i d1 w1 = (w2, Threw x) ->
        applyResponseInterceptors this d w = (w2, Threw x)).
Proof.
  split; [intros i; repeat split|]. split.
  - intros i d. unfold applyResponseInterceptors. simpl.
    rewrite response_loop_app.
    destruct (response_loop (responseInterceptors this) d w) as [w' [d'|x]];
      [|reflexivity].
    simpl. unfold bind. destruct (i d' w') as [w2 [d2|x]]; reflexivity.
  - intros l1 i l2 d w1 d1 w2 x Hl H1 Hi.
    unfold applyResponseInterceptors. rewrite Hl, response_loop_app, H1.
    simpl. unfold bind. now rewrite Hi.
Qed.
End ResponseChainFacts.

Section OnlyWayToSucceed.
Import Js Api Contract.
Variable P : Platform.
Variable this : ApiService.

(** A call gives its caller a value in one way only: the request chain
    returned, [fetch] resolved in time with a response whose status is from
    200 to 299, its body decoded, and the response chain returned that
    value. A response with another status never gives a value, whatever the
    interceptors do. *)
Theorem success_needs_an_ok_response url cfg w w' v :
  makeRequest P this url cfg w = (w', Returned v) ->
  exists w1 fc w2 response payload,
    applyRequestInterceptors this (with_default_headers this cfg) w = (w1, Returned fc)
    /\ fetch_with_abort P (buildUrl this url (RequestConfig.baseURL fc)) fc
         (num_or_else (RequestConfig.timeout fc) (ApiConfig.timeout (config this)))
         w1 = (w2, Returned response)
    /\ 200 <= Response.status response <= 299
    /\ Response.json response = Returned payload
    /\ applyResponseInterceptors this payload w2 = (w', Returned v).
Proof.
  intros H. unfold makeRequest in H.
  assert (Hcatch : forall x w0, makeRequest_catch P this x w0 <> (w', Returned v)).
  { intros x w0. unfold makeRequest_catch.
    destruct (instanceof_ApiClientError x);
      [unfold throw; congruence | apply error_loop_never_returns]. }
  destruct (makeRequest_try P this url cfg w) as [w2 [[e|payload]|x]] eqn:Htry.
  - exfalso. exact (error_loop_never_returns _ _ _ _ _ H).
  - unfold makeRequest_try, bind in Htry.
    destruct (applyRequestInterceptors this (with_default_headers this cfg) w)
      as [w1 [fc|x]] eqn:Hchain; [|discriminate Htry].
    destruct (fetch_with_abort P (buildUrl this url (RequestConfig.baseURL fc)) fc
                (num_or_else (RequestConfig.timeout fc)
                   (ApiConfig.timeout (config this))) w1)
      as [w3 [response|x]] eqn:Hfetch; [|discriminate Htry].
    destruct (Response.ok response) eqn:Hok; simpl in Htry.
    + unfold lift in Htry.
      destruct (Response.json response) as [payload'|x] eqn:Hj;
        [|discriminate Htry].
      injection Htry as <- <-.
      exists w1, fc, w3, response, payload'.
      repeat split; try assumption.
      * unfold Response.ok in Hok. apply andb_prop in Hok as [Hlo _].
        now apply Z.leb_le.
      * unfold Response.ok in Hok. apply andb_prop in Hok as [_ Hhi].
        now apply Z.leb_le.
    + destruct (http_error response w3) as [w4 [e|x]]; discriminate Htry.
  - exfalso. exact (Hcatch _ _ H).
Qed.
End OnlyWayToSucceed.

Section DefaultInterceptorFacts.
Import Js Api Contract.

(** The default request interceptor. With a token in the local storage that
    is not empty, the configuration it returns carries [Authorization:
    Bearer <token>], in place of an [Authorization] header of the call, and
    every other header and field of the configuration as it was. Without a
    token, or with an empty one, the configuration comes back unchanged.
    The storage is only read. *)
Theorem authorization_header_is_injected (cfg : RequestConfig.t) (w : World) :
  (forall token,
     localStorage w !! "auth_token" = Some token -> token <> "" ->
     exists hs,
       default_request_interceptor cfg w
       = (w, Returned (RequestConfig.mk (RequestConfig.method cfg) (Some hs)
                         (RequestConfig.body cfg) (RequestConfig.timeout cfg)
                         (RequestConfig.baseURL cfg)))
       /\ hs !! "Authorization" = Some ("Bearer " +:+ token)
       /\ forall k, k <> "Authorization" ->
                    hs !! k = default ∅ (RequestConfig.headers cfg) !! k)
  /\ (localStorage w !! "auth_token" = None
      \/ localStorage w !! "auth_token" = Some "" ->
      default_request_interceptor cfg w = (w, Returned cfg)).
Proof.
  split.
  - intros token Ht Hne. apply String.eqb_neq in Hne.
    unfold default_request_interceptor. rewrite Ht, Hne.
    eexists. split; [reflexivity|]. split.
    + apply lookup_insert_eq.
    + intros k Hk. now apply lookup_insert_ne.
  - intros [H | H]; unfold default_request_interceptor; rewrite H; reflexivity.
Qed.
End DefaultInterceptorFacts.

Section DefaultClientCalls.
Import Js Api Contract.
Variable P : Platform.
Variable env : Env.EnvConfig.

(** The shape of every call through [apiClient]: the request chain returns
    in the world it found, [fetch] is called once, and from the world it
    leaves the call either returns a value, or re-raises an [ApiClientError]
    that the network itself rejected with, or ends in the default error
    interceptor. *)
Lemma apiClient_call_shape (url : string) (cfg : RequestConfig.t) (w : World) :
  exists fc,
    applyRequestInterceptors (apiClient env) (with_default_headers (apiClient env) cfg) w
    = (w, Returned fc)
    /\ let fullUrl := buildUrl (apiClient env) url (RequestConfig.baseURL fc) in
       let timeout := num_or_else (RequestConfig.timeout fc)
                        (ApiConfig.timeout (config (apiClient env))) in
       let w2 := fst (fetch_with_abort P fullUrl fc timeout w) in
       (exists v, makeRequest P (apiClient env) url cfg w = (w2, Returned v)
                  /\ (timer_delay timeout <? latency (network P w fullUrl fc)) = false)
       \/ (exists e, makeRequest P (apiClient env) url cfg w = (w2, Threw (ExApi e)))
       \/ (exists e, makeRequest P (apiClient env) url cfg w
                     = default_error_interceptor env e w2).
Proof.
  destruct (apiClient_issues_one_fetch P env url cfg w) as (fc & Hchain & _ & _ & _).
  exists fc. split; [exact Hchain|]. cbv zeta.
  set (fullUrl := buildUrl (apiClient env) url (RequestConfig.baseURL fc)).
  set (timeout := num_or_else (RequestConfig.timeout fc)
                    (ApiConfig.timeout (config (apiClient env)))).
  assert (Hchainerr : forall e w0,
            applyErrorInterceptors (apiClient env) e w0
            = default_error_interceptor env e w0).
  { intros e w0. unfold applyErrorInterceptors, apiClient. simpl. unfold bind.
    destruct (default_error_interceptor env e w0) as [w3 [v|x]] eqn:Hd;
      [|reflexivity].
    unfold default_error_interceptor in Hd. discriminate Hd. }
  assert (Hcatch : forall x w0,
            (exists e, makeRequest_catch P (apiClient env) x w0 = (w0, Threw (ExApi e)))
            \/ (exists e, makeRequest_catch P (apiClient env) x w0
                          = default_error_interceptor env e w0)).
  { intros x w0. unfold makeRequest_catch. destruct x as [e|n m|v]; simpl.
    - left. now exists e.
    - right. eexists. apply Hchainerr.
    - right. eexists. apply Hchainerr. }
  unfold makeRequest, makeRequest_try, bind. rewrite Hchain.
  fold fullUrl timeout.
  destruct (fetch_with_abort P fullUrl fc timeout w) as [w2 [response|x]] eqn:Hfetch;
    simpl.
  - assert (Hintime : (timer_delay timeout <? latency (network P w fullUrl fc)) = false).
    { unfold fetch_with_abort in Hfetch.
      destruct (timer_delay timeout <? latency (network P w fullUrl fc)); [discriminate Hfetch|].
      reflexivity. }
    destruct (negb (Response.ok response)).
    + pose proof (http_error_keeps_world response w2) as Hk.
      destruct (http_error response w2) as [w3 [e|x]]; simpl in Hk; subst w3.
      * right; right. exists e. apply Hchainerr.
      * right. apply Hcatch.
    + unfold lift. destruct (Response.json response) as [payload|x].
      * left. unfold applyResponseInterceptors, apiClient. simpl. unfold bind.
        rewrite default_response_interceptor_unwraps. eexists. split; [reflexivity|].
        exact Hintime.
      * right. apply Hcatch.
  - right. apply Hcatch.
Qed.

(** The world that [fetch] leaves differs from the one it found in the two
    logs only. *)
Lemma fetch_keeps_browser_state fullUrl init timeout w :
  let w2 := fst (fetch_with_abort P fullUrl init timeout w) in
  localStorage w2 = localStorage w /\ location_href w2 = location_href w
  /\ console_error w2 = console_error w
  /\ fetch_log w2 = fetch_log w ++ [(fullUrl, init)]
  /\ abort_log w2
     = abort_log w
       ++ (if timer_delay timeout <? latency (network P w fullUrl init)
           then [fullUrl] else []).
Proof.
  unfold fetch_with_abort.
  destruct (timer_delay timeout <? latency (network P w fullUrl init)); simpl;
    repeat split; now rewrite ?app_nil_r.
Qed.

(** What the default client rejects with. A request that [makeRequest] of
    [apiClient] has been given rejects with an [ApiClientError] and with
    nothing else, whatever the network does and whatever it rejects with.
    That is every [get] and [delete], and every [post], [put] and [patch]
    from the point where the body has been serialized; [JSON.stringify]
    runs before [makeRequest], and what it throws on data without a JSON
    form is not an [ApiClientError]. *)
Theorem default_client_rejects_with_ApiClientError url w w' x :
  (forall cfg,
     makeRequest P (apiClient env) url cfg w = (w', Threw x) -> exists e, x = ExApi e)
  /\ (forall cfg,
        get P (apiClient env) url cfg w = (w', Threw x) -> exists e, x = ExApi e)
  /\ (forall cfg,
        delete P (apiClient env) url cfg w = (w', Threw x) -> exists e, x = ExApi e)
  /\ (forall data cfg,
        post P (apiClient env) url data cfg w = (w', Threw x) -> exists e, x = ExApi e)
  /\ (forall data cfg,
        put P (apiClient env) url data cfg w = (w', Threw x) -> exists e, x = ExApi e)
  /\ (forall data cfg,
        patch P (apiClient env) url data cfg w = (w', Threw x) -> exists e, x = ExApi e).
Proof.
  assert (Hall : forall cfg,
            makeRequest P (apiClient env) url cfg w = (w', Threw x) ->
            exists e, x = ExApi e).
  { intros cfg H.
    destruct (apiClient_call_shape url cfg w) as (fc & _ & Hshape).
    cbv zeta in Hshape.
    destruct Hshape as [(v & Hv & _) | [(e & He) | (e & He)]]; rewrite H in *.
    - discriminate Hv.
    - injection He as _ ->. now exists e.
    - unfold default_error_interceptor in He. injection He as _ ->. now exists e. }
  split; [exact Hall|].
  split; [intros cfg; apply Hall|].
  split; [intros cfg; apply Hall|].
  split; [intros data cfg; apply Hall|].
  split; intros data cfg; apply Hall.
Qed.

(** A call through [apiClient] that returns a value has changed nothing in
    the browser but the log of requests: the storage, the location and the
    console are as they were, and the request was not aborted. *)
Theorem successful_call_leaves_the_browser_alone url cfg w w' v :
  makeRequest P (apiClient env) url cfg w = (w', Returned v) ->
  localStorage w' = localStorage w
  /\ location_href w' = location_href w
  /\ console_error w' = console_error w
  /\ abort_log w' = abort_log w
  /\ exists fullUrl init, fetch_log w' = fetch_log w ++ [(fullUrl, init)].
Proof.
  intros H.
  destruct (apiClient_call_shape url cfg w) as (fc & _ & Hshape). cbv zeta in Hshape.
  pose proof (fetch_keeps_browser_state
                (buildUrl (apiClient env) url (RequestConfig.baseURL fc)) fc
                (num_or_else (RequestConfig.timeout fc)
                   (ApiConfig.timeout (config (apiClient env)))) w)
    as (Hs & Hl & Hc & Hf & Ha).
  destruct Hshape as [(v' & Hv & Hintime) | [(e & He) | (e & He)]]; rewrite H in *.
  - injection Hv as -> _. rewrite Hintime, app_nil_r in Ha.
    repeat split; try assumption. eauto.
  - discriminate He.
  - unfold default_error_interceptor in He. discriminate He.
Qed.

(** The credentials are touched by an error with status 401 and by nothing
    else: a call through [apiClient] whose outcome is not an
    [ApiClientError] with status 401 leaves the local storage and the
    location as they were. *)
Theorem credentials_survive_other_outcomes url cfg w w' o :
  makeRequest P (apiClient env) url cfg w = (w', o) ->
  (forall e, o = Threw (ExApi e) -> status e <> 401) ->
  localStorage w' = localStorage w /\ location_href w' = location_href w.
Proof.
  intros H Hno.
  destruct (apiClient_call_shape url cfg w) as (fc & _ & Hshape). cbv zeta in Hshape.
  pose proof (fetch_keeps_browser_state
                (buildUrl (apiClient env) url (RequestConfig.baseURL fc)) fc
                (num_or_else (RequestConfig.timeout fc)
                   (ApiConfig.timeout (config (apiClient env)))) w)
    as (Hs & Hl & _).
  destruct Hshape as [(v' & Hv & _) | [(e & He) | (e & He)]]; rewrite H in *.
  - injection Hv as -> _. now split.
  - injection He as -> _. now split.
  - assert (Ho : o = Threw (ExApi e)).
    { unfold default_error_interceptor in He. now injection He as _ ->. }
    pose proof (other_status_keeps_credentials env e
                  (fst (fetch_with_abort P
                          (buildUrl (apiClient env) url (RequestConfig.baseURL fc)) fc
                          (num_or_else (RequestConfig.timeout fc)
                             (ApiConfig.timeout (config (apiClient env)))) w))
                  (Hno e Ho)) as [Hs' Hl'].
    rewrite <- He in Hs', Hl'. cbn [fst] in Hs', Hl'.
    split; [now rewrite Hs' | now rewrite Hl'].
Qed.

(** What the console gets. With [ENABLE_DEBUG] off a call through
    [apiClient] writes nothing to it; with [ENABLE_DEBUG] on it writes at
    most one entry, and that entry is the error the caller gets. *)
Theorem errors_are_logged_in_debug_only url cfg w w' o :
  makeRequest P (apiClient env) url cfg w = (w', o) ->
  (Env.ENABLE_DEBUG env = false -> console_error w' = console_error w)
  /\ (console_error w' = console_error w
      \/ exists e, console_error w' = console_error w ++ [e] /\ o = Threw (ExApi e)).
Proof.
  intros H.
  destruct (apiClient_call_shape url cfg w) as (fc & _ & Hshape). cbv zeta in Hshape.
  pose proof (fetch_keeps_browser_state
                (buildUrl (apiClient env) url (RequestConfig.baseURL fc)) fc
                (num_or_else (RequestConfig.timeout fc)
                   (ApiConfig.timeout (config (apiClient env)))) w)
    as (_ & _ & Hc & _).
  destruct Hshape as [(v' & Hv & _) | [(e & He) | (e & He)]]; rewrite H in *.
  - injection Hv as -> _. split; [intros _; exact Hc | left; exact Hc].
  - injection He as -> _. split; [intros _; exact Hc | left; exact Hc].
  - revert He Hc.
    generalize (fst (fetch_with_abort P
                       (buildUrl (apiClient env) url (RequestConfig.baseURL fc)) fc
                       (num_or_else (RequestConfig.timeout fc)
                          (ApiConfig.timeout (config (apiClient env)))) w)).
    intros w2 He Hc. unfold default_error_interceptor in He.
    destruct (status e =? 401); destruct (Env.ENABLE_DEBUG env);
      injection He as -> ->; cbn [console_error]; rewrite Hc;
      (split; [try discriminate; intros _; reflexivity|]);
      first [left; reflexivity | right; exists e; split; reflexivity].
Qed.

End DefaultClientCalls.

Section MoreClientFacts.
Import Js Api Contract.
Variable P : Platform.

Lemma default_error_interceptor_on_401 (env : Env.EnvConfig) (e : ApiClientError)
    (w : World) :
  status e = 401 ->
  exists w',
    default_error_interceptor env e w = (w', Threw (ExApi e))
    /\ localStorage w' !! "auth_token" = None
    /\ localStorage w' !! "refresh_token" = None
    /\ location_href w' = "/login".
Proof.
  intros H. unfold default_error_interceptor. rewrite H. simpl.
  destruct (Env.ENABLE_DEBUG env); eexists; (split; [reflexivity|]); simpl;
    (split; [|split; [|reflexivity]]).
  all: try (rewrite lookup_delete_ne by discriminate; apply lookup_delete_eq).
  all: apply lookup_delete_eq.
Qed.

Lemma apiClient_error_chain (env : Env.EnvConfig) (e : ApiClientError) (w : World) :
  applyErrorInterceptors (apiClient env) e w = default_error_interceptor env e w.
Proof.
  unfold applyErrorInterceptors, apiClient. simpl. unfold bind.
  destruct (default_error_interceptor env e w) as [w3 [v|x]] eqn:Hd; [|reflexivity].
  unfold default_error_interceptor in Hd. discriminate Hd.
Qed.

(** A response with status 401, through the whole of a call. Take a
    request that [makeRequest] of [apiClient] has been given, under a
    timeout in force of at most 2^31 - 1 milliseconds, which the timer
    takes as it is. When the network answers it within that time with
    status 401 and a body whose message, or without one the generic text,
    prints as a string, the caller gets an [ApiClientError] with status 401
    and that string as message, both tokens are gone from the local storage
    and the window has been sent to [/login]. *)
Theorem unauthorized_response_logs_out (env : Env.EnvConfig) url cfg w fc response
    m text :
  applyRequestInterceptors (apiClient env) (with_default_headers (apiClient env) cfg) w
  = (w, Returned fc) ->
  latency (network P w (buildUrl (apiClient env) url (RequestConfig.baseURL fc)) fc)
  <= num_or_else (RequestConfig.timeout fc) (ApiConfig.timeout (config (apiClient env)))
  <= 2147483647 ->
  settles (network P w (buildUrl (apiClient env) url (RequestConfig.baseURL fc)) fc)
  = Returned response ->
  Response.status response = 401 ->
  get_prop (json_or_empty response) "message" = Returned m ->
  ToString
    (or_else m
       (VStr ("HTTP " +:+ Z_to_string (Response.status response)
              +:+ ": " +:+ Response.statusText response)))
  = Returned text ->
  exists e w',
    makeRequest P (apiClient env) url cfg w = (w', Threw (ExApi e))
    /\ status e = 401
    /\ message e = text
    /\ localStorage w' !! "auth_token" = None
    /\ localStorage w' !! "refresh_token" = None
    /\ location_href w' = "/login".
Proof.
  intros Hchain Hlat Hset H401 Hm Htext.
  pose proof (fetch_in_time P _ fc _ w Hlat) as Hfetch. rewrite Hset in Hfetch.
  assert (Hok : Response.ok response = false).
  { unfold Response.ok. rewrite H401. reflexivity. }
  assert (Hn : json_or_empty response <> VNull).
  { intros E. rewrite E in Hm. discriminate Hm. }
  assert (Hu : json_or_empty response <> VUndefined).
  { intros E. rewrite E in Hm. discriminate Hm. }
  destruct (http_status_reaches_error_chain P (apiClient env) url cfg w w fc _ response
              Hchain Hfetch Hok Hn Hu) as (m' & c & d & Hm' & _ & _ & Hrun & _).
  rewrite Hm in Hm'. injection Hm' as <-.
  specialize (Hrun text Htext).
  destruct (default_error_interceptor_on_401 env
              (mkApiClientError text (Response.status response)
                 (or_else c (VStr "HTTP_ERROR")) d)
              (fetched w (buildUrl (apiClient env) url (RequestConfig.baseURL fc)) fc)
              H401)
    as (w' & Hd & Ha & Hr & Hl).
  eexists. exists w'.
  split; [now rewrite Hrun, apiClient_error_chain, Hd|].
  split; [exact H401|]. split; [reflexivity|]. now repeat split.
Qed.

(** The constructor. The base URL and the timeout that are not given are
    those of [env]. The headers are taken whole: headers given to the
    constructor replace the default ones, so that a request carries the
    default [Content-Type: application/json] only when the constructor got
    no headers. In every case a header of the call wins. *)
Theorem constructor_headers_replace_defaults (env : Env.EnvConfig)
    (partial : PartialApiConfig.t) (cfg : RequestConfig.t) (k : string) :
  let this := new_ApiService env partial in
  ApiConfig.baseURL (config this)
  = default (Env.API_BASE_URL env) (PartialApiConfig.baseURL partial)
  /\ ApiConfig.timeout (config this)
     = default (Env.API_TIMEOUT env) (PartialApiConfig.timeout partial)
  /\ requestInterceptors this = [] /\ responseInterceptors this = []
  /\ errorInterceptors this = []
  /\ exists merged,
       RequestConfig.headers (with_default_headers this cfg) = Some merged
       /\ merged !! k
          = match default ∅ (RequestConfig.headers cfg) !! k with
            | Some v => Some v
            | None =>
                match PartialApiConfig.headers partial with
                | Some h => h !! k
                | None =>
                    if String.eqb k "Content-Type" then Some "application/json"
                    else None
                end
            end.
Proof.
  cbv zeta. do 5 (split; [reflexivity|]).
  destruct (merged_headers_lookup (new_ApiService env partial) cfg k)
    as (merged & Hm & Hk).
  exists merged. split; [exact Hm|]. rewrite Hk.
  destruct (default ∅ (RequestConfig.headers cfg) !! k); [reflexivity|].
  unfold new_ApiService. simpl.
  destruct (PartialApiConfig.headers partial) as [h|]; [reflexivity|]. simpl.
  destruct (String.eqb_spec k "Content-Type") as [-> | Hne].
  - apply lookup_singleton_eq.
  - apply lookup_singleton_ne. congruence.
Qed.

Lemma startsWith_prefix (p s : string) :
  startsWith s p = true -> exists rest, s = p +:+ rest.
Proof.
  revert s. induction p as [|a p IH]; intros s H.
  - now exists s.
  - destruct s as [|b s]; [discriminate H|].
    cbn [startsWith] in H. destruct (Ascii.eqb a b) eqn:E; [|discriminate H].
    apply Ascii.eqb_eq in E. subst b. destruct (IH s H) as [rest ->].
    now exists rest.
Qed.

Lemma startsWith_append (p rest : string) : startsWith (p +:+ rest) p = true.
Proof.
  induction p as [|a p IH]; [now destruct rest|].
  rewrite append_cons. cbn [startsWith]. now rewrite Ascii.eqb_refl.
Qed.

Lemma http_base_keeps_its_scheme (b x : string) :
  startsWith b "http" = true ->
  startsWith (replace_trailing_slash b +:+ x) "http" = true.
Proof.
  intros H. destruct (startsWith_prefix _ _ H) as [rest ->].
  destruct rest as [|c rest].
  - change (replace_trailing_slash ("http" +:+ "") +:+ x) with ("http" +:+ x).
    apply startsWith_append.
  - change (replace_trailing_slash ("http" +:+ String c rest) +:+ x)
      with ("http" +:+ (replace_trailing_slash (String c rest) +:+ x)).
    apply startsWith_append.
Qed.

(** Resolving twice. When the base in force starts with [http], as the
    default one does, the URL that [buildUrl] gives starts with [http], and
    resolving it again, against any base, gives it back. *)
Theorem resolved_url_is_stable (this : ApiService) (url : string)
    (baseURL baseURL' : option string) :
  startsWith (str_or_else baseURL (ApiConfig.baseURL (config this))) "http" = true ->
  startsWith (buildUrl this url baseURL) "http" = true
  /\ buildUrl this (buildUrl this url baseURL) baseURL' = buildUrl this url baseURL.
Proof.
  intros Hbase.
  assert (H : startsWith (buildUrl this url baseURL) "http" = true).
  { unfold buildUrl. destruct (startsWith url "http") eqn:Hurl; [exact Hurl|].
    now apply http_base_keeps_its_scheme. }
  split; [exact H|]. now apply buildUrl_absolute.
Qed.
End MoreClientFacts.

(** * Further properties of the environment readers *)

Section MoreEnvFacts.
Import Js Env Contract.
Variable import_meta_env : gmap string string.

(** [getEnvVar]. What it returns is never empty: it is the value of the
    variable when that is set and not empty, else the default when that is
    given and not empty; with neither, it raises. *)
Theorem getEnvVar_gives_a_nonempty_value (key : string) (d : option string) :
  (forall s,
     getEnvVar import_meta_env key d = Returned s ->
     s <> ""
     /\ (import_meta_env !! key = Some s
         \/ (import_meta_env !! key = None \/ import_meta_env !! key = Some "")
            /\ d = Some s))
  /\ (forall v, import_meta_env !! key = Some v -> v <> "" ->
                getEnvVar import_meta_env key d = Returned v)
  /\ (import_meta_env !! key = None \/ import_meta_env !! key = Some "" ->
      d = None \/ d = Some "" ->
      getEnvVar import_meta_env key d
      = Threw (ExError "Error"
                 ("Environment variable " +:+ key +:+ " is required but not set"))).
Proof.
  split; [|split].
  - intros s. unfold getEnvVar.
    destruct (import_meta_env !! key) as [v|] eqn:Hv.
    + destruct (String.eqb_spec v "") as [-> | Hne].
      * destruct d as [dv|]; [|discriminate].
        destruct (String.eqb_spec dv "") as [-> | Hd]; [discriminate|].
        intros [= <-]. split; [exact Hd|]. right. split; [now right | reflexivity].
      * apply String.eqb_neq in Hne as Hne'. rewrite Hne'.
        intros [= <-]. split; [exact Hne | now left].
    + destruct d as [dv|]; [|discriminate].
      destruct (String.eqb_spec dv "") as [-> | Hd]; [discriminate|].
      intros [= <-]. split; [exact Hd|]. right. split; [now left | reflexivity].
  - intros v Hv Hne. apply String.eqb_neq in Hne. unfold getEnvVar.
    now rewrite Hv, Hne, Hne.
  - intros Hv Hd. unfold getEnvVar.
    destruct Hv as [-> | ->]; destruct Hd as [-> | ->]; reflexivity.
Qed.

(** [getBooleanEnvVar]. It is true exactly when the variable is ["true"]
    or ["1"], or is absent with a default of true; so a variable that is
    present with any other text, the empty one included, reads as false
    whatever the default. *)
Theorem getBooleanEnvVar_true_iff (key : string) (d : bool) :
  getBooleanEnvVar import_meta_env key d = true
  <-> (import_meta_env !! key = None /\ d = true)
      \/ import_meta_env !! key = Some "true"
      \/ import_meta_env !! key = Some "1".
Proof.
  unfold getBooleanEnvVar. destruct (import_meta_env !! key) as [v|].
  - split.
    + intros H. apply orb_prop in H as [H | H]; apply String.eqb_eq in H; subst;
        auto.
    + intros [[H _] | [[= ->] | [= ->]]]; [discriminate H | reflexivity | reflexivity].
  - split; [intros ->; auto | intros [[_ H] | [H | H]]; [exact H | discriminate H ..]].
Qed.

(** The constructed [env]. None of its five texts is empty, each is the
    variable when that is set and not empty and the default otherwise, and
    the debug flag is on unless [VITE_ENABLE_DEBUG] is set to something
    other than ["true"] and ["1"]. *)
Theorem env_has_no_empty_text (e : EnvConfig) :
  env import_meta_env = Returned e ->
  APP_NAME e <> "" /\ APP_VERSION e <> "" /\ APP_DESCRIPTION e <> ""
  /\ NODE_ENV e <> "" /\ API_BASE_URL e <> ""
  /\ API_BASE_URL e
     = str_or_else (import_meta_env !! "VITE_API_BASE_URL") "http://localhost:8000/api"
  /\ NODE_ENV e = str_or_else (import_meta_env !! "VITE_NODE_ENV") "development"
  /\ (ENABLE_DEBUG e = false
      <-> exists v, import_meta_env !! "VITE_ENABLE_DEBUG" = Some v
                    /\ v <> "true" /\ v <> "1").
Proof.
  assert (Hne : forall o d, d <> "" -> str_or_else o d <> "").
  { intros [s|] d Hd; simpl; [|exact Hd].
    destruct (String.eqb_spec s ""); assumption. }
  rewrite env_follows_timeout.
  destruct (getNumberEnvVar import_meta_env "VITE_API_TIMEOUT" (Some 10000))
    as [t|x]; [|discriminate].
  simpl. intros [= <-]. simpl.
  do 5 (split; [apply Hne; discriminate|]).
  do 2 (split; [reflexivity|]).
  unfold getBooleanEnvVar.
  destruct (import_meta_env !! "VITE_ENABLE_DEBUG") as [v|].
  - split.
    + intros H. apply orb_false_elim in H as [H1 H2].
      apply String.eqb_neq in H1, H2. now exists v.
    + intros (v' & [= <-] & H1 & H2). apply String.eqb_neq in H1, H2.
      now rewrite H1, H2.
  - split; [discriminate | intros (v & Hv & _); discriminate Hv].
Qed.

(** The three mode flags. At most one of [isDevelopment], [isProduction]
    and [isTest] holds, and with [VITE_NODE_ENV] unset or empty the mode is
    development. *)
Theorem modes_are_exclusive (e : EnvConfig) :
  (isDevelopment e = true -> isProduction e = false /\ isTest e = false)
  /\ (isProduction e = true -> isDevelopment e = false /\ isTest e = false)
  /\ (isTest e = true -> isDevelopment e = false /\ isProduction e = false)
  /\ (env import_meta_env = Returned e ->
      import_meta_env !! "VITE_NODE_ENV" = None
      \/ import_meta_env !! "VITE_NODE_ENV" = Some "" ->
      isDevelopment e = true).
Proof.
  unfold isDevelopment, isProduction, isTest.
  split; [|split; [|split]].
  1-3: intros H; apply String.eqb_eq in H; rewrite H; split; reflexivity.
  intros He Hv. rewrite env_follows_timeout in He.
  destruct (getNumberEnvVar import_meta_env "VITE_API_TIMEOUT" (Some 10000))
    as [t|x]; [|discriminate He].
  injection He as <-. cbn [NODE_ENV]. destruct Hv as [-> | ->]; reflexivity.
Qed.
End MoreEnvFacts.

Section PrintAndParse.
Import Js Env Contract.

Lemma leading_digits_cons (c : ascii) (d : Z) (s : string) :
  digit_of c = Some d -> leading_digits (String c s) = d :: leading_digits s.
Proof. intros H. cbn [leading_digits]. now rewrite H. Qed.

Lemma all_digits_cons (c : ascii) (d : Z) (s : string) :
  digit_of c = Some d -> all_digits (String c s) = all_digits s.
Proof.
  intros H. cbn [all_digits]. rewrite H.
  rewrite bool_decide_eq_true_2 by eauto. reflexivity.
Qed.

Ltac eval_digit :=
  repeat match goal with
    | |- context [Z.of_nat (nat_of_ascii ?c) - 48] =>
        let v := eval vm_compute in (Z.of_nat (nat_of_ascii c) - 48) in
        change (Z.of_nat (nat_of_ascii c) - 48) with v
    end.

Lemma printed_uint_all_digits (u : Decimal.uint) :
  all_digits (NilEmpty.string_of_uint u) = true.
Proof.
  induction u; cbn [NilEmpty.string_of_uint]; [reflexivity|..];
    (erewrite all_digits_cons by reflexivity); assumption.
Qed.

Lemma printed_uint_value_acc (u : Decimal.uint) :
  forall acc,
    fold_left (fun a d => 10 * a + d) (leading_digits (NilEmpty.string_of_uint u))
      (Z.pos acc)
    = Z.pos (Pos.of_uint_acc u acc).
Proof.
  induction u as [|u IH|u IH|u IH|u IH|u IH|u IH|u IH|u IH|u IH|u IH]; intros acc;
    cbn [NilEmpty.string_of_uint Pos.of_uint_acc]; [reflexivity|..];
    (erewrite leading_digits_cons by reflexivity); cbn [fold_left];
    eval_digit; rewrite <- IH; f_equal; lia.
Qed.

Lemma printed_uint_value (u : Decimal.uint) :
  digits_value (leading_digits (NilEmpty.string_of_uint u)) = Z.of_N (Pos.of_uint u).
Proof.
  unfold digits_value.
  induction u as [|u IH|u IH|u IH|u IH|u IH|u IH|u IH|u IH|u IH|u IH];
    cbn [NilEmpty.string_of_uint Pos.of_uint]; [reflexivity|..];
    (erewrite leading_digits_cons by reflexivity); cbn [fold_left]; eval_digit;
    [exact IH|..]; apply (printed_uint_value_acc u).
Qed.

Lemma printed_positive (p : positive) :
  exists ds, NilZero.string_of_uint (Pos.to_uint p) = ds
             /\ ds <> "" /\ all_digits ds = true
             /\ digits_value (leading_digits ds) = Z.pos p.
Proof.
  exists (NilEmpty.string_of_uint (Pos.to_uint p)).
  pose proof (Unsigned.to_uint_nonnil p) as Hnn.
  split; [|split; [|split]].
  - destruct (Pos.to_uint p); [congruence | reflexivity ..].
  - destruct (Pos.to_uint p); [congruence | discriminate ..].
  - apply printed_uint_all_digits.
  - rewrite printed_uint_value, Unsigned.of_to. reflexivity.
Qed.

Lemma Z_to_string_decimal (z : Z) :
  - 2 ^ 53 <= z <= 2 ^ 53 -> Z_to_string z = NilZero.string_of_int (Z.to_int z).
Proof.
  intros H. unfold Z_to_string.
  destruct (Z.leb_spec (Z.abs z) (2 ^ 53)); [reflexivity | lia].
Qed.

Lemma parseInt_of_printed (z : Z) (rest : string) :
  - 2 ^ 53 <= z <= 2 ^ 53 ->
  leading_digits rest = [] -> parseInt (Z_to_string z +:+ rest) = Some z.
Proof.
  intros Hsafe Hrest. rewrite (Z_to_string_decimal z Hsafe).
  destruct z as [|p|p]; cbn [Z.to_int].
  - apply (parseInt_numeral "" "" "0" rest);
      [reflexivity | now left | discriminate | reflexivity | exact Hrest].
  - cbn [NilZero.string_of_int].
    destruct (printed_positive p) as (ds & -> & Hne & Hds & Hval).
    pose proof (parseInt_numeral "" "" ds rest eq_refl (or_introl eq_refl) Hne Hds
                  Hrest) as Hp.
    change ("" +:+ "" +:+ ds +:+ rest) with (ds +:+ rest) in Hp.
    rewrite Hp, Hval, round_to_double_exact by lia. reflexivity.
  - cbn [NilZero.string_of_int].
    destruct (printed_positive p) as (ds & -> & Hne & Hds & Hval).
    pose proof (parseInt_numeral "" "-" ds rest eq_refl (or_intror (or_intror eq_refl))
                  Hne Hds Hrest) as Hp.
    change ("" +:+ "-" +:+ ds +:+ rest) with (String "-" ds +:+ rest) in Hp.
    rewrite Hp, Hval, round_to_double_exact by lia. reflexivity.
Qed.

(** Printing and reading back. A numeric variable whose value is the
    decimal text of an integer between -2^53 and 2^53, which the numbers of
    the code hold exactly, reads as that integer, also when text that does
    not begin with a digit follows it. *)
Theorem getNumberEnvVar_reads_printed_integers
    (import_meta_env : gmap string string) (key : string) (d : option Z) (z : Z)
    (rest : string) :
  - 2 ^ 53 <= z <= 2 ^ 53 ->
  import_meta_env !! key = Some (Z_to_string z +:+ rest) ->
  leading_digits rest = [] ->
  getNumberEnvVar import_meta_env key d = Returned z.
Proof.
  intros Hsafe Hv Hrest. pose proof (parseInt_of_printed z rest Hsafe Hrest) as Hp.
  unfold getNumberEnvVar. rewrite Hv.
  assert (Hs : str_or_else (Some (Z_to_string z +:+ rest)) "0"
               = Z_to_string z +:+ rest).
  { unfold str_or_else.
    destruct (String.eqb_spec (Z_to_string z +:+ rest) "") as [E|]; [|reflexivity].
    rewrite E in Hp. discriminate Hp. }
  rewrite Hs, Hp. destruct d; reflexivity.
Qed.
End PrintAndParse.

(** * Properties of [useApi] *)

Section HookFacts.
Import Js Api Contract Hooks.

(** A call that succeeds while the component stays mounted: the result is
    stored, the error is cleared, the loading flag is down again, the
    [onSuccess] callback has run on the result, and [execute] resolves to
    the result. *)
Theorem execute_stores_the_result (apiCall : M value)
    (onSuccess : option (value -> M value)) (onError : option (exn -> M value))
    (h : HookState) (w w1 w2 : World) (result v : value) :
  mounted h = true ->
  apiCall w = (w1, Returned result) ->
  optional_call onSuccess result w1 = (w2, Returned v) ->
  execute apiCall onSuccess onError false h w
  = (w2, mkHookState result false VNull true, Returned result).
Proof.
  intros Hm Hcall Hcb. unfold execute. rewrite Hcall, Hm. cbn [andb negb mounted].
  rewrite Hcb. reflexivity.
Qed.

(** A call that fails while the component stays mounted. When the message
    of what was thrown can be read, which is so unless [null] or
    [undefined] was thrown, and [onError] is absent or returns, the failure
    is not re-raised: [execute] resolves to [null], the message becomes the
    error, the data stay as they were, the loading flag is down again and
    [onError] has run. The same happens to a call that succeeded when
    [onSuccess] throws, except that the result has been stored by then.
    Otherwise [execute] rejects: with the error of reading the message when
    that read throws, the error of the state left cleared, and with what
    [onError] threw when it throws, the message stored as the error; the
    loading flag is down in both cases. *)
Theorem execute_turns_failure_into_state (apiCall : M value)
    (onSuccess : option (value -> M value)) (onError : option (exn -> M value))
    (h : HookState) (w w1 : World) :
  mounted h = true ->
  (forall err m w2 v,
     apiCall w = (w1, Threw err) ->
     message_of err = Returned m ->
     optional_call onError err w1 = (w2, Returned v) ->
     execute apiCall onSuccess onError false h w
     = (w2, mkHookState (data h) false m true, Returned VNull))
  /\ (forall result w2 err m w3 v,
        apiCall w = (w1, Returned result) ->
        optional_call onSuccess result w1 = (w2, Threw err) ->
        message_of err = Returned m ->
        optional_call onError err w2 = (w3, Returned v) ->
        execute apiCall onSuccess onError false h w
        = (w3, mkHookState result false m true, Returned VNull))
  /\ (forall err x,
        apiCall w = (w1, Threw err) ->
        message_of err = Threw x ->
        execute apiCall onSuccess onError false h w
        = (w1, mkHookState (data h) false VNull true, Threw x))
  /\ (forall err m w2 x,
        apiCall w = (w1, Threw err) ->
        message_of err = Returned m ->
        optional_call onError err w1 = (w2, Threw x) ->
        execute apiCall onSuccess onError false h w
        = (w2, mkHookState (data h) false m true, Threw x))
  /\ (forall err,
        (exists x, message_of err = Threw x)
        <-> err = ExValue VNull \/ err = ExValue VUndefined).
Proof.
  intros Hm. split; [|split; [|split; [|split]]].
  - intros err m w2 v Hcall Hmsg Hcb. unfold execute. rewrite Hcall, Hm.
    unfold execute_catch. cbn [andb negb mounted]. rewrite Hmsg, Hcb. reflexivity.
  - intros result w2 err m w3 v Hcall Hs Hmsg Hcb. unfold execute.
    rewrite Hcall, Hm. cbn [andb negb mounted]. rewrite Hs.
    unfold execute_catch. cbn [mounted]. rewrite Hmsg, Hcb. reflexivity.
  - intros err x Hcall Hmsg. unfold execute. rewrite Hcall, Hm.
    unfold execute_catch. cbn [andb negb mounted]. rewrite Hmsg. reflexivity.
  - intros err m w2 x Hcall Hmsg Hcb. unfold execute. rewrite Hcall, Hm.
    unfold execute_catch. cbn [andb negb mounted]. rewrite Hmsg, Hcb. reflexivity.
  - intros err. split.
    + intros [x Hx]. destruct err as [e|n m|[| |b|z| |s|l|m]]; try discriminate Hx;
        [now right | now left].
    + intros [-> | ->]; eexists; reflexivity.
Qed.

(** Unmounting while the call is pending. When the component unmounts
    before the call has settled, nothing is stored and no callback runs:
    the state is the one from before the call with the loading flag up and
    the error cleared, the world is the one the call left, and [execute]
    resolves to the result of the call or to [null]. *)
Theorem execute_after_unmount (apiCall : M value)
    (onSuccess : option (value -> M value)) (onError : option (exn -> M value))
    (h : HookState) (w : World) :
  mounted h = true ->
  execute apiCall onSuccess onError true h w
  = (fst (apiCall w),
     mkHookState (data h) true VNull false,
     match snd (apiCall w) with
     | Returned result => Returned result
     | Threw _ => Returned VNull
     end).
Proof.
  intros Hm. unfold execute. rewrite Hm. cbn [andb negb].
  destruct (apiCall w) as [w1 [result|err]]; reflexivity.
Qed.

(** The loading flag, on every path of a mounted component, those that
    end in an exception included: when [execute] has settled the loading
    flag is down if the component is still mounted, and up if it unmounted
    meanwhile. *)
Theorem execute_loading_flag (apiCall : M value)
    (onSuccess : option (value -> M value)) (onError : option (exn -> M value))
    (unmounts : bool) (h : HookState) (w : World) :
  mounted h = true ->
  mounted (snd (fst (execute apiCall onSuccess onError unmounts h w))) = negb unmounts
  /\ isLoading (snd (fst (execute apiCall onSuccess onError unmounts h w))) = unmounts.
Proof.
  intros Hm. unfold execute, execute_catch. cbn [mounted]. rewrite Hm.
  destruct unmounts; cbn [andb negb].
  - destruct (apiCall w) as [w1 [result|err]]; now split.
  - destruct (apiCall w) as [w1 [result|err]].
    + destruct (optional_call onSuccess result w1) as [w2 [v|x]]; [now split|].
      destruct (message_of x) as [m|t]; [|now split].
      destruct (optional_call onError x w2) as [w3 [v|t]]; now split.
    + destruct (message_of err) as [m|t]; [|now split].
      destruct (optional_call onError err w1) as [w3 [v|t]]; now split.
Qed.

(** [useApi] without callbacks over a request that [makeRequest] of the
    default client has been given, as [useGet] issues it with [get]; the
    calls of [usePost] and [usePut] are such requests once
    [JSON.stringify] has returned the body. [execute] never rejects,
    whatever the network does: it resolves to what the call returned, or to
    [null], and then the call rejected with an [ApiClientError] whose
    message is the error of a component that is still mounted. *)
Theorem execute_over_the_default_client_never_rejects (P : Platform)
    (env : Env.EnvConfig) (url : string) (unmounts : bool)
    (h : HookState) (w : World) :
  (forall cfg,
     exists w' h' v,
       execute (makeRequest P (apiClient env) url cfg) None None unmounts h w
       = (w', h', Returned v)
       /\ (snd (makeRequest P (apiClient env) url cfg w) = Returned v
           \/ v = VNull
              /\ exists e,
                   snd (makeRequest P (apiClient env) url cfg w) = Threw (ExApi e)
                   /\ (mounted h' = true -> error h' = VStr (message e))))
  /\ (exists w' h' v,
        execute (get P (apiClient env) url None) None None unmounts h w
        = (w', h', Returned v)
        /\ (snd (get P (apiClient env) url None w) = Returned v
            \/ v = VNull
               /\ exists e,
                    snd (get P (apiClient env) url None w) = Threw (ExApi e)
                    /\ (mounted h' = true -> error h' = VStr (message e)))).
Proof.
  assert (Hall : forall cfg,
            exists w' h' v,
              execute (makeRequest P (apiClient env) url cfg) None None unmounts h w
              = (w', h', Returned v)
              /\ (snd (makeRequest P (apiClient env) url cfg w) = Returned v
                  \/ v = VNull
                     /\ exists e,
                          snd (makeRequest P (apiClient env) url cfg w)
                          = Threw (ExApi e)
                          /\ (mounted h' = true -> error h' = VStr (message e)))).
  { intros cfg. unfold execute, execute_catch. cbn [mounted optional_call].
    destruct (apiClient_call_shape P env url cfg w) as (fc & _ & Hshape).
    cbv zeta in Hshape.
    destruct Hshape as [(v & Hv & _) | [(e & He) | (e & He)]].
    - rewrite Hv. unfold ret.
      destruct (mounted h && negb unmounts); do 3 eexists; (split; [reflexivity|]);
        left; reflexivity.
    - rewrite He. unfold ret. cbn [message_of snd].
      destruct (mounted h && negb unmounts); do 3 eexists; (split; [reflexivity|]);
        right; (split; [reflexivity|]); exists e; (split; [reflexivity|]);
        cbn [mounted error]; first [reflexivity | discriminate].
    - rewrite He. unfold default_error_interceptor, ret. cbn [message_of snd].
      destruct (mounted h && negb unmounts); do 3 eexists; (split; [reflexivity|]);
        right; (split; [reflexivity|]); exists e; (split; [reflexivity|]);
        cbn [mounted error]; first [reflexivity | discriminate]. }
  split; [exact Hall | exact (Hall (with_method None "GET"))].
Qed.

Lemma query_keeps_the_scheme (b q : string) :
  startsWith (b +:+ String "?" q) "http" = startsWith b "http".
Proof.
  destruct b as [|c1 b]; [reflexivity|]. rewrite append_cons. cbn [startsWith].
  destruct (Ascii.eqb "h" c1); [|reflexivity].
  destruct b as [|c2 b]; [reflexivity|]. rewrite append_cons. cbn [startsWith].
  destruct (Ascii.eqb "t" c2); [|reflexivity].
  destruct b as [|c3 b]; [reflexivity|]. rewrite append_cons. cbn [startsWith].
  destruct (Ascii.eqb "t" c3); [|reflexivity].
  destruct b as [|c4 b]; [reflexivity|]. rewrite append_cons. cbn [startsWith].
  destruct (Ascii.eqb "p" c4); [|reflexivity].
  destruct b; reflexivity.
Qed.

Lemma append_assoc (a b c : string) : (a +:+ b) +:+ c = a +:+ (b +:+ c).
Proof.
  induction a as [|x a IH]; [reflexivity|]. now rewrite !append_cons, IH.
Qed.

(** The URL of a page. The query that [usePaginatedApi] appends to its
    base URL stays at the end when the client resolves the URL: the page
    is asked for at the resolved base URL followed by
    [?page=<page>&limit=<pageSize>]. *)
Theorem page_url_is_resolved (this : ApiService) (baseUrl : string)
    (page pageSize : Z) (baseURL : option string) :
  buildUrl this (page_url baseUrl page pageSize) baseURL
  = buildUrl this baseUrl baseURL
    +:+ "?page=" +:+ Z_to_string page +:+ "&limit=" +:+ Z_to_string pageSize.
Proof.
  unfold page_url.
  set (q := "page=" +:+ Z_to_string page +:+ "&limit=" +:+ Z_to_string pageSize).
  change ("?page=" +:+ Z_to_string page +:+ "&limit=" +:+ Z_to_string pageSize)
    with (String "?" q).
  unfold buildUrl. rewrite query_keeps_the_scheme.
  destruct (startsWith baseUrl "http"); [reflexivity|].
  assert (Hl : replace_leading_slash (baseUrl +:+ String "?" q)
               = replace_leading_slash baseUrl +:+ String "?" q).
  { destruct baseUrl as [|c b]; [reflexivity|]. rewrite append_cons.
    cbn [replace_leading_slash]. destruct (Ascii.eqb c "/"); reflexivity. }
  rewrite Hl, !append_assoc. reflexivity.
Qed.
End HookFacts.

(** * Properties of the image helpers *)

Section ImageFacts.
Import Js ImageUtils.

Lemma has_dot_app (a b : string) : has_dot (a +:+ b) = has_dot a || has_dot b.
Proof.
  induction a as [|c a IH]; [reflexivity|].
  rewrite append_cons. cbn [has_dot]. now rewrite IH, orb_assoc.
Qed.

Lemma last_segment_after_dot (stem ext : string) :
  has_dot ext = false -> last_segment (stem +:+ "." +:+ ext) = ext.
Proof.
  intros Hext. induction stem as [|c stem IH].
  - change ("" +:+ "." +:+ ext) with (String "." ext). cbn [last_segment].
    now rewrite Hext.
  - rewrite append_cons. cbn [last_segment].
    rewrite has_dot_app. change (has_dot ("." +:+ ext)) with true.
    now rewrite orb_true_r.
Qed.

Lemma last_segment_without_dot (s : string) :
  has_dot s = false -> last_segment s = s.
Proof.
  destruct s as [|c s]; [reflexivity|]. cbn [has_dot last_segment].
  intros H. apply orb_false_elim in H as [Hc Hs]. now rewrite Hs, Hc.
Qed.

Lemma drop_as_many_self (pat : string) : drop_as_many pat pat = "".
Proof. induction pat as [|c pat IH]; [reflexivity | exact IH]. Qed.

Lemma startsWith_self (pat : string) : startsWith pat pat = true.
Proof.
  induction pat as [|c pat IH]; [reflexivity|]. cbn [startsWith].
  now rewrite Ascii.eqb_refl.
Qed.

Lemma replace_first_self (pat : string) : replace_first pat pat = "".
Proof.
  destruct pat as [|c pat]; [reflexivity|]. cbn [replace_first].
  rewrite startsWith_self. apply drop_as_many_self.
Qed.

Lemma replace_first_at_end (pat stem : string) :
  indexOf pat (stem +:+ pat) = Some (String.length stem) ->
  replace_first pat (stem +:+ pat) = stem.
Proof.
  induction stem as [|c stem IH].
  - intros _. apply replace_first_self.
  - rewrite append_cons. cbn [indexOf replace_first String.length].
    destruct (startsWith (String c (stem +:+ pat)) pat); [discriminate|].
    destruct (indexOf pat (stem +:+ pat)) as [n|] eqn:Hn; [|discriminate].
    cbn. intros [= ->]. now rewrite IH.
Qed.

Lemma replace_first_without_dot (p s : string) :
  has_dot s = false -> replace_first (String "." p) s = s.
Proof.
  induction s as [|c s IH]; [reflexivity|]. cbn [has_dot].
  intros H. apply orb_false_elim in H as [Hc Hs].
  cbn [replace_first startsWith]. rewrite Ascii.eqb_sym, Hc. now rewrite (IH Hs).
Qed.

(** [generateSrcSet] on a path with an extension. For a path that ends in
    a dot and an extension without dots, and in which that dot and
    extension do not occur earlier, the result names, for each width in
    the order given and separated by [", "], the file
    [<stem>-<width>w.<extension>] followed by the descriptor [<width>w]. *)
Theorem generateSrcSet_names_each_width (stem ext : string) (sizes : option (list Z)) :
  has_dot ext = false ->
  indexOf ("." +:+ ext) (stem +:+ "." +:+ ext) = Some (String.length stem) ->
  generateSrcSet (stem +:+ "." +:+ ext) sizes
  = join ", "
      (map (fun size =>
              stem +:+ "-" +:+ Z_to_string size +:+ "w." +:+ ext
              +:+ " " +:+ Z_to_string size +:+ "w")
         (default default_sizes sizes)).
Proof.
  intros Hext Hidx. unfold generateSrcSet.
  rewrite (last_segment_after_dot stem ext Hext).
  now rewrite (replace_first_at_end ("." +:+ ext) stem Hidx).
Qed.

(** [generateSrcSet] on a path without a dot: the whole path is taken as
    the extension and nothing is cut off, so that every file is named
    [<path>-<width>w.<path>]. *)
Theorem generateSrcSet_without_extension (basePath : string)
    (sizes : option (list Z)) :
  has_dot basePath = false ->
  generateSrcSet basePath sizes
  = join ", "
      (map (fun size =>
              basePath +:+ "-" +:+ Z_to_string size +:+ "w." +:+ basePath
              +:+ " " +:+ Z_to_string size +:+ "w")
         (default default_sizes sizes)).
Proof.
  intros H. unfold generateSrcSet.
  rewrite (last_segment_without_dot basePath H).
  change ("." +:+ basePath) with (String "." basePath).
  now rewrite (replace_first_without_dot basePath basePath H).
Qed.

(** [getImageOptimizationTips]. There are at most two tips; a file of at
    most half a megabyte gets none; a file of more than two megabytes gets
    the advice to compress first; and a file that is neither a PNG nor a
    JPEG gets that advice or nothing. *)
Theorem image_tips_are_few (file : File) :
  (length (getImageOptimizationTips file) <= 2)%nat
  /\ (size file <= 524288 -> getImageOptimizationTips file = [])
  /\ (2097152 < size file ->
      exists rest,
        getImageOptimizationTips file
        = "Consider compressing the image - it's larger than 2MB" :: rest)
  /\ (type file <> "image/png" -> type file <> "image/jpeg" ->
      getImageOptimizationTips file
      = if 2097152 <? size file
        then ["Consider compressing the image - it's larger than 2MB"] else []).
Proof.
  unfold getImageOptimizationTips.
  split; [|split; [|split]].
  - destruct (2097152 <? size file);
      destruct (String.eqb_spec (type file) "image/png") as [E|];
      destruct (String.eqb_spec (type file) "image/jpeg") as [E'|];
      try (rewrite E in E'; discriminate E');
      destruct (524288 <? size file); destruct (1048576 <? size file);
      cbn; lia.
  - intros H.
    destruct (Z.ltb_spec 2097152 (size file)); [lia|].
    destruct (Z.ltb_spec 524288 (size file)); [lia|].
    destruct (Z.ltb_spec 1048576 (size file)); [lia|].
    now rewrite !andb_false_r.
  - intros H. destruct (Z.ltb_spec 2097152 (size file)); [|lia].
    eexists. reflexivity.
  - intros Hp Hj. apply String.eqb_neq in Hp, Hj. rewrite Hp, Hj. cbn.
    now rewrite app_nil_r.
Qed.
End ImageFacts.

(** * The test helpers and the client *)

Section MockFacts.
Import Js Api Contract TestUtils.
Variable P : Platform.
Variable this : ApiService.

(** The envelope of the tests and the default response interceptor undo
    each other: a success response whose body is [mockApiResponse(data)]
    gives the caller [data]. *)
Theorem mocked_envelope_gives_the_data url cfg w w1 fc w2 response timestamp data :
  responseInterceptors this = [default_response_interceptor] ->
  applyRequestInterceptors this (with_default_headers this cfg) w = (w1, Returned fc) ->
  fetch_with_abort P (buildUrl this url (RequestConfig.baseURL fc)) fc
    (num_or_else (RequestConfig.timeout fc) (ApiConfig.timeout (config this)))
    w1 = (w2, Returned response) ->
  Response.ok response = true ->
  Response.json response = Returned (mockApiResponse timestamp data) ->
  makeRequest P this url cfg w = (w2, Returned data).
Proof.
  intros Hri H1 H2 Hok Hj. unfold makeRequest.
  rewrite (try_success P this url cfg w w1 fc w2 response _ H1 H2 Hok Hj).
  unfold applyResponseInterceptors. rewrite Hri. cbn [response_loop]. unfold bind.
  rewrite default_response_interceptor_unwraps. unfold mockApiResponse.
  now rewrite lookup_insert_eq.
Qed.

(** The error body of the tests. A response that is not [ok] and whose body
    is [mockApiError(message, code, status)], with a message and a code
    that are not empty, sends into the error chain an error with that
    message and that code and with empty details; its status is the one of
    the response, and the [status] written in the body is not read. *)
Theorem mocked_error_keeps_the_response_status url cfg w w1 fc w2 response
    (message : string) (code : option string) (status : option Z) :
  message <> "" -> code <> Some "" ->
  applyRequestInterceptors this (with_default_headers this cfg) w = (w1, Returned fc) ->
  fetch_with_abort P (buildUrl this url (RequestConfig.baseURL fc)) fc
    (num_or_else (RequestConfig.timeout fc) (ApiConfig.timeout (config this)))
    w1 = (w2, Returned response) ->
  Response.ok response = false ->
  Response.json response = Returned (mockApiError message code status) ->
  makeRequest P this url cfg w
  = applyErrorInterceptors this
      (mkApiClientError message (Response.status response)
         (VStr (default "ERROR" code)) (VObj ∅))
      w2.
Proof.
  intros Hm Hc H1 H2 Hok Hj. unfold makeRequest.
  rewrite (try_http_error P this url cfg w w1 fc w2 response H1 H2 Hok).
  assert (Hcode : default "ERROR" code <> "").
  { destruct code as [c|]; [cbn; congruence | discriminate]. }
  apply String.eqb_neq in Hm, Hcode.
  unfold http_error, json_or_empty. rewrite Hj. unfold mockApiError.
  cbn [get_prop]. unfold bind, lift, ret.
  rewrite lookup_insert_eq.
  rewrite lookup_insert_ne by discriminate. rewrite lookup_insert_eq.
  do 2 (rewrite lookup_insert_ne by discriminate).
  rewrite lookup_insert_ne by discriminate. rewrite lookup_singleton_eq.
  cbn [default id]. unfold or_else. cbn [truthy]. rewrite Hm, Hcode. reflexivity.
Qed.
End MockFacts.

(** * The further properties on concrete inputs *)

Section FurtherExamples.
Import Js Api Contract.

(** The response chain of [apiClient] with a throwing interceptor behind
    the default one. *)
Lemma response_interceptors_run_in_order_witness :
  applyResponseInterceptors
    (addResponseInterceptor (apiClient Sample.env) Sample.failing_response)
    (VObj {[ "data" := VNum 7 ]}) Sample.world
  = (Sample.world, Threw (ExError "Error" "bad payload")).
Proof.
  apply (proj2 (proj2
           (response_interceptors_run_in_order
              (addResponseInterceptor (apiClient Sample.env) Sample.failing_response)
              Sample.world))
           [default_response_interceptor] Sample.failing_response []
           (VObj {[ "data" := VNum 7 ]}) Sample.world (VNum 7) Sample.world
           (ExError "Error" "bad payload"));
    reflexivity.
Defined.

(** [GET /users] answered by 200 with an envelope. *)
Lemma success_needs_an_ok_response_witness :
  exists w1 fc w2 response payload,
    applyRequestInterceptors (apiClient Sample.env)
      (with_default_headers (apiClient Sample.env) (with_method None "GET"))
      Sample.world = (w1, Returned fc)
    /\ fetch_with_abort (Sample.platform Sample.ok_users)
         (buildUrl (apiClient Sample.env) "/users" (RequestConfig.baseURL fc)) fc
         (num_or_else (RequestConfig.timeout fc)
            (ApiConfig.timeout (config (apiClient Sample.env))))
         w1 = (w2, Returned response)
    /\ 200 <= Response.status response <= 299
    /\ Response.json response = Returned payload
    /\ applyResponseInterceptors (apiClient Sample.env) payload w2
       = (fetched Sample.world Sample.users_url Sample.get_config,
          Returned Sample.users).
Proof.
  apply (success_needs_an_ok_response (Sample.platform Sample.ok_users)
           (apiClient Sample.env) "/users" (with_method None "GET") Sample.world
           (fetched Sample.world Sample.users_url Sample.get_config) Sample.users).
  vm_compute. reflexivity.
Defined.

(** The default request interceptor with the token [t1] in the storage. *)
Lemma authorization_header_is_injected_witness :
  exists hs,
    default_request_interceptor Sample.get_config Sample.logged_in
    = (Sample.logged_in,
       Returned (RequestConfig.mk (Some "GET") (Some hs) None None None))
    /\ hs !! "Authorization" = Some "Bearer t1"
    /\ forall k, k <> "Authorization" ->
                 hs !! k
                 = ({[ "Content-Type" := "application/json" ]} : gmap string string)
                   !! k.
Proof.
  apply (proj1 (authorization_header_is_injected Sample.get_config Sample.logged_in)
           "t1"); [vm_compute; reflexivity | discriminate].
Defined.

(** [apiClient.get('/users')] over a connection that fails. *)
Lemma default_client_rejects_with_ApiClientError_witness :
  exists e,
    ExApi (mkApiClientError "Failed to fetch" 0 (VStr "NETWORK_ERROR") VUndefined)
    = ExApi e.
Proof.
  apply (proj1 (proj2
           (default_client_rejects_with_ApiClientError (Sample.platform Sample.down)
              Sample.env "/users" Sample.world
              (mkWorld ∅ ""
                 [mkApiClientError "Failed to fetch" 0 (VStr "NETWORK_ERROR")
                    VUndefined]
                 [(Sample.users_url, Sample.get_config)] [])
              (ExApi (mkApiClientError "Failed to fetch" 0 (VStr "NETWORK_ERROR")
                        VUndefined))))
           None).
  vm_compute. reflexivity.
Defined.

(** [GET /users] answered by 200, with both tokens stored. *)
Lemma successful_call_leaves_the_browser_alone_witness :
  exists w',
    fst (makeRequest (Sample.platform Sample.ok_users) (apiClient Sample.env) "/users"
           (with_method None "GET") Sample.logged_in) = w'
    /\ localStorage w' = localStorage Sample.logged_in
    /\ location_href w' = location_href Sample.logged_in
    /\ console_error w' = console_error Sample.logged_in
    /\ abort_log w' = abort_log Sample.logged_in
    /\ exists fullUrl init,
         fetch_log w' = fetch_log Sample.logged_in ++ [(fullUrl, init)].
Proof.
  eexists. split; [reflexivity|].
  apply (successful_call_leaves_the_browser_alone (Sample.platform Sample.ok_users)
           Sample.env "/users" (with_method None "GET") Sample.logged_in _
           Sample.users).
  vm_compute. reflexivity.
Defined.

(** A 404, with both tokens stored: the tokens stay. *)
Lemma credentials_survive_other_outcomes_witness :
  localStorage
    (fst (makeRequest (Sample.platform Sample.not_found) (apiClient Sample.env)
            "/users/7" (with_method None "GET") Sample.logged_in))
  = localStorage Sample.logged_in
  /\ location_href
       (fst (makeRequest (Sample.platform Sample.not_found) (apiClient Sample.env)
               "/users/7" (with_method None "GET") Sample.logged_in))
     = "/home".
Proof.
  apply (credentials_survive_other_outcomes (Sample.platform Sample.not_found)
           Sample.env "/users/7" (with_method None "GET") Sample.logged_in _
           (Threw (ExApi (mkApiClientError "No such user" 404 (VStr "NO_USER")
                            VUndefined)))).
  - vm_compute. reflexivity.
  - intros e [= <-]. discriminate.
Defined.

(** A 404 with [ENABLE_DEBUG] on: one entry, the error the caller gets. *)
Lemma errors_are_logged_in_debug_only_witness :
  exists w' e,
    makeRequest (Sample.platform Sample.not_found) (apiClient Sample.env) "/users/7"
      (with_method None "GET") Sample.world = (w', Threw (ExApi e))
    /\ (console_error w' = console_error Sample.world
        \/ exists e', console_error w' = console_error Sample.world ++ [e']
                      /\ Threw (A := value) (ExApi e) = Threw (ExApi e')).
Proof.
  do 2 eexists. split; [vm_compute; reflexivity|].
  apply (proj2 (errors_are_logged_in_debug_only (Sample.platform Sample.not_found)
                  Sample.env "/users/7" (with_method None "GET") Sample.world _ _
                  ltac:(vm_compute; reflexivity))).
Defined.


(** A 401 after 40 ms under the default timeout of 10 s, with a message in
    the body and both tokens stored. *)
Lemma unauthorized_response_logs_out_witness :
  let reply :=
    mkNetReply 40
      (Returned (Response.mk 401 "Unauthorized"
                   (Returned (VObj {[ "message" := VStr "Session expired" ]})))) in
  exists e w',
    makeRequest (Sample.platform reply) (apiClient Sample.env) "/users"
      (with_method None "GET") Sample.logged_in = (w', Threw (ExApi e))
    /\ status e = 401
    /\ message e = "Session expired"
    /\ localStorage w' !! "auth_token" = None
    /\ localStorage w' !! "refresh_token" = None
    /\ location_href w' = "/login".
Proof.
  cbv zeta.
  apply (unauthorized_response_logs_out
           (Sample.platform
              (mkNetReply 40
                 (Returned (Response.mk 401 "Unauthorized"
                              (Returned
                                 (VObj {[ "message" := VStr "Session expired" ]}))))))
           Sample.env "/users" (with_method None "GET") Sample.logged_in
           (RequestConfig.mk (Some "GET")
              (Some (<["Authorization" := "Bearer t1"]>
                       {[ "Content-Type" := "application/json" ]}))
              None None None)
           (Response.mk 401 "Unauthorized"
              (Returned (VObj {[ "message" := VStr "Session expired" ]})))
           (VStr "Session expired") "Session expired");
    first [vm_compute; reflexivity | split; vm_compute; discriminate].
Defined.

(** The default base URL starts with [http]. *)
Lemma resolved_url_is_stable_witness :
  startsWith (buildUrl Sample.service "/users" None) "http" = true
  /\ buildUrl Sample.service (buildUrl Sample.service "/users" None)
       (Some "http://other/") = "http://localhost:8000/api/users".
Proof.
  apply (resolved_url_is_stable Sample.service "/users" None (Some "http://other/")).
  reflexivity.
Defined.
End FurtherExamples.

Section FurtherEnvExamples.
Import Js Env Contract.

(** A variable that is set wins over the default. *)
Lemma getEnvVar_gives_a_nonempty_value_witness :
  getEnvVar {[ "VITE_APP_NAME" := "Shop" ]} "VITE_APP_NAME" (Some "Kurama")
  = Returned "Shop"
  /\ getEnvVar {[ "VITE_APP_NAME" := "" ]} "VITE_APP_NAME" None
     = Threw (ExError "Error"
                "Environment variable VITE_APP_NAME is required but not set").
Proof.
  split.
  - apply (proj1 (proj2 (getEnvVar_gives_a_nonempty_value
                           {[ "VITE_APP_NAME" := "Shop" ]} "VITE_APP_NAME"
                           (Some "Kurama"))) "Shop");
      [vm_compute; reflexivity | discriminate].
  - apply (proj2 (proj2 (getEnvVar_gives_a_nonempty_value
                           {[ "VITE_APP_NAME" := "" ]} "VITE_APP_NAME" None)));
      [right; vm_compute; reflexivity | left; reflexivity].
Defined.

(** [env] when no variable is set. *)
Lemma env_has_no_empty_text_witness :
  APP_NAME Sample.env <> "" /\ APP_VERSION Sample.env <> ""
  /\ APP_DESCRIPTION Sample.env <> "" /\ NODE_ENV Sample.env <> ""
  /\ API_BASE_URL Sample.env <> ""
  /\ API_BASE_URL Sample.env
     = str_or_else ((∅ : gmap string string) !! "VITE_API_BASE_URL")
         "http://localhost:8000/api"
  /\ NODE_ENV Sample.env
     = str_or_else ((∅ : gmap string string) !! "VITE_NODE_ENV") "development"
  /\ (ENABLE_DEBUG Sample.env = false
      <-> exists v, (∅ : gmap string string) !! "VITE_ENABLE_DEBUG" = Some v
                    /\ v <> "true" /\ v <> "1").
Proof.
  apply (env_has_no_empty_text ∅ Sample.env). vm_compute. reflexivity.
Defined.

(** The mode of [env] when no variable is set. *)
Lemma modes_are_exclusive_witness :
  isDevelopment Sample.env = true
  /\ isProduction Sample.env = false /\ isTest Sample.env = false.
Proof.
  split.
  - apply (proj2 (proj2 (proj2 (modes_are_exclusive ∅ Sample.env))));
      [vm_compute; reflexivity | left; reflexivity].
  - apply (proj1 (modes_are_exclusive ∅ Sample.env)). reflexivity.
Defined.

(** A negative timeout with a unit behind it. *)
Lemma getNumberEnvVar_reads_printed_integers_witness :
  getNumberEnvVar {[ "VITE_API_TIMEOUT" := "-250ms" ]} "VITE_API_TIMEOUT" (Some 10000)
  = Returned (-250).
Proof.
  apply (getNumberEnvVar_reads_printed_integers {[ "VITE_API_TIMEOUT" := "-250ms" ]}
           "VITE_API_TIMEOUT" (Some 10000) (-250) "ms");
    [split; vm_compute; discriminate | vm_compute; reflexivity | reflexivity].
Defined.
End FurtherEnvExamples.

Section HookExamples.
Import Js Api Contract Hooks.

(** [useGet('/users')] answered by 200 with an envelope. *)
Lemma execute_stores_the_result_witness :
  execute (get (Sample.platform Sample.ok_users) (apiClient Sample.env) "/users" None)
    None None false initial Sample.world
  = (fetched Sample.world Sample.users_url Sample.get_config,
     mkHookState Sample.users false VNull true, Returned Sample.users).
Proof.
  apply (execute_stores_the_result
           (get (Sample.platform Sample.ok_users) (apiClient Sample.env) "/users" None)
           None None initial Sample.world
           (fetched Sample.world Sample.users_url Sample.get_config)
           (fetched Sample.world Sample.users_url Sample.get_config)
           Sample.users VUndefined);
    vm_compute; reflexivity.
Defined.

(** [useGet('/users/7')] answered by 404. *)
Lemma execute_turns_failure_into_state_witness :
  let e := mkApiClientError "No such user" 404 (VStr "NO_USER") VUndefined in
  let w1 := mkWorld ∅ "" [e] [("http://localhost:8000/api/users/7", Sample.get_config)]
              [] in
  execute
    (get (Sample.platform Sample.not_found) (apiClient Sample.env) "/users/7" None)
    None None false initial Sample.world
  = (w1, mkHookState VNull false (VStr "No such user") true, Returned VNull).
Proof.
  cbv zeta.
  apply (proj1 (execute_turns_failure_into_state
                  (get (Sample.platform Sample.not_found) (apiClient Sample.env)
                     "/users/7" None)
                  None None initial Sample.world
                  (mkWorld ∅ ""
                     [mkApiClientError "No such user" 404 (VStr "NO_USER") VUndefined]
                     [("http://localhost:8000/api/users/7", Sample.get_config)] [])
                  eq_refl)
           (ExApi (mkApiClientError "No such user" 404 (VStr "NO_USER") VUndefined))
           (VStr "No such user")
           (mkWorld ∅ ""
              [mkApiClientError "No such user" 404 (VStr "NO_USER") VUndefined]
              [("http://localhost:8000/api/users/7", Sample.get_config)] [])
           VUndefined);
    vm_compute; reflexivity.
Defined.

(** The component unmounts while [GET /users] is pending. *)
Lemma execute_after_unmount_witness :
  execute (get (Sample.platform Sample.ok_users) (apiClient Sample.env) "/users" None)
    None None true initial Sample.world
  = (fetched Sample.world Sample.users_url Sample.get_config,
     mkHookState VNull true VNull false, Returned Sample.users).
Proof.
  apply (execute_after_unmount
           (get (Sample.platform Sample.ok_users) (apiClient Sample.env) "/users" None)
           None None initial Sample.world).
  reflexivity.
Defined.

(** A call that fails while the component unmounts. *)
Lemma execute_loading_flag_witness :
  mounted (snd (fst (execute
                       (get (Sample.platform Sample.down) (apiClient Sample.env)
                          "/users" None)
                       None None true initial Sample.world))) = false
  /\ isLoading (snd (fst (execute
                            (get (Sample.platform Sample.down) (apiClient Sample.env)
                               "/users" None)
                            None None true initial Sample.world))) = true.
Proof.
  apply (execute_loading_flag
           (get (Sample.platform Sample.down) (apiClient Sample.env) "/users" None)
           None None true initial Sample.world).
  reflexivity.
Defined.

Example second_page_of_users :
  buildUrl (apiClient Sample.env) (page_url "/users" 2 20) None
  = "http://localhost:8000/api/users?page=2&limit=20".
Proof. reflexivity. Qed.
End HookExamples.

Section ImageExamples.
Import Js ImageUtils.

(** A path with dots before its extension. *)
Lemma generateSrcSet_names_each_width_witness :
  generateSrcSet "https://cdn.example.com/img/hero.jpg" (Some [320; 640])
  = "https://cdn.example.com/img/hero-320w.jpg 320w, "
    +:+ "https://cdn.example.com/img/hero-640w.jpg 640w".
Proof.
  apply (generateSrcSet_names_each_width "https://cdn.example.com/img/hero" "jpg"
           (Some [320; 640])); vm_compute; reflexivity.
Defined.

(** A path without a dot. *)
Lemma generateSrcSet_without_extension_witness :
  generateSrcSet "hero" (Some [320]) = "hero-320w.hero 320w".
Proof.
  apply (generateSrcSet_without_extension "hero" (Some [320])). reflexivity.
Defined.

(** A PNG of three megabytes. *)
Lemma image_tips_are_few_witness :
  exists rest,
    getImageOptimizationTips (mkFile "image/png" 3145728)
    = "Consider compressing the image - it's larger than 2MB" :: rest.
Proof.
  apply (proj1 (proj2 (proj2 (image_tips_are_few (mkFile "image/png" 3145728))))).
  reflexivity.
Defined.

(** The extension occurs earlier in the path: the earlier one is cut. *)
Example generateSrcSet_cuts_the_first_occurrence :
  generateSrcSet "img.png/photo.png" (Some [320]) = "img/photo.png-320w.png 320w".
Proof. reflexivity. Qed.
End ImageExamples.

Section MockExamples.
Import Js Api Contract TestUtils.

(** [GET /users] answered by 200 with [mockApiResponse(users)]. *)
Lemma mocked_envelope_gives_the_data_witness :
  let reply :=
    mkNetReply 40
      (Returned (Response.mk 200 "OK"
                   (Returned (mockApiResponse "2024-01-01T00:00:00.000Z"
                                Sample.users)))) in
  makeRequest (Sample.platform reply) (apiClient Sample.env) "/users"
    (with_method None "GET") Sample.world
  = (fetched Sample.world Sample.users_url Sample.get_config, Returned Sample.users).
Proof.
  cbv zeta.
  apply (mocked_envelope_gives_the_data _ (apiClient Sample.env) "/users"
           (with_method None "GET") Sample.world Sample.world Sample.get_config
           (fetched Sample.world Sample.users_url Sample.get_config)
           (Response.mk 200 "OK"
              (Returned (mockApiResponse "2024-01-01T00:00:00.000Z" Sample.users)))
           "2024-01-01T00:00:00.000Z" Sample.users);
    vm_compute; reflexivity.
Defined.

(** [GET /users] answered by 422 with [mockApiError('Invalid')]. *)
Lemma mocked_error_keeps_the_response_status_witness :
  let reply :=
    mkNetReply 40
      (Returned (Response.mk 422 "Error" (Returned (mockApiError "Invalid" None None))))
  in
  makeRequest (Sample.platform reply) (apiClient Sample.env) "/users"
    (with_method None "GET") Sample.world
  = applyErrorInterceptors (apiClient Sample.env)
      (mkApiClientError "Invalid" 422 (VStr "ERROR") (VObj ∅))
      (fetched Sample.world Sample.users_url Sample.get_config).
Proof.
  cbv zeta.
  apply (mocked_error_keeps_the_response_status _ (apiClient Sample.env) "/users"
           (with_method None "GET") Sample.world Sample.world Sample.get_config
           (fetched Sample.world Sample.users_url Sample.get_config)
           (Response.mk 422 "Error" (Returned (mockApiError "Invalid" None None)))
           "Invalid" None None);
    first [discriminate | vm_compute; reflexivity].
Defined.
End MockExamples.
